(** * Automatic SketchUp extension signing: a model of [sign.ts]

    The script zips an extension folder, logs into the Extension Warehouse
    with a driven browser, uploads the archive and downloads the signed
    result.  Everything it does is a sequence of calls into the outside
    world (file system, dotenv, prompts, the browser, the download helper)
    interleaved with console output and [process.exit].

    The model below keeps that shape:
    - the functions of Node's [path] module that the script uses are
      written out ([Path]), following the POSIX implementation;
    - every call into the outside world is a constructor of [Call]; the
      world answers through an arbitrary deterministic responder with a
      state of its own, so a theorem quantified over the responder holds
      whatever the portal, the disk or the operator do;
    - the script's functions live in a monad that threads the world,
      records a trace of console lines and calls, and distinguishes a normal
      return, a thrown exception and [process.exit]. *)

From Stdlib Require Import String Ascii List ZArith Bool Lia DecimalString.
Import ListNotations.
Local Open Scope string_scope.

(** ** JavaScript values used by the script *)

(** A value of TypeScript type [string] that may be [undefined] at run
    time ([argv.output], the answer of a cancelled prompt, a missing
    environment variable). *)
Definition JsString := option string.

(** JavaScript truthiness of such a value: [undefined] and the empty
    string are falsy. *)
Definition truthy (v : JsString) : bool :=
  match v with
  | None => false
  | Some s => negb (String.length s =? 0)%nat
  end.

(** The double quote character, which the script puts around paths in
    its messages. *)
Definition dq : string := String (ascii_of_nat 34) EmptyString.

(** ** Node's [path] module (POSIX flavour) *)

Module Path.

Definition is_slash (c : option ascii) : bool :=
  match c with
  | Some a => Ascii.eqb a "/"
  | None => false
  end.

Definition is_dot (c : option ascii) : bool :=
  match c with
  | Some a => Ascii.eqb a "."
  | None => false
  end.

Definition same_code (c d : option ascii) : bool :=
  match c, d with
  | Some a, Some b => Ascii.eqb a b
  | None, None => true
  | _, _ => false
  end.

(** [path.charCodeAt(i)] for an index kept in [Z] (the library's loops
    use [-1] as "not found"). *)
Definition charAt (s : string) (i : Z) : option ascii :=
  if (i <? 0)%Z then None else String.get (Z.to_nat i) s.

(** [s.slice(a, b)] for [0 <= a]. *)
Definition slice (s : string) (a b : Z) : string :=
  substring (Z.to_nat a) (Z.to_nat (b - a)) s.

Definition len (s : string) : Z := Z.of_nat (String.length s).

(** *** [dirname] *)

(** The loop [for (i = path.length - 1; i >= 1; --i)]: [n] is the index
    under examination; the result is [end] ([-1] when the loop runs
    out). *)
Fixpoint dirname_loop (path : string) (n : nat) (matchedSlash : bool) : Z :=
  match n with
  | O => (-1)%Z
  | S m =>
      if is_slash (String.get n path) then
        if negb matchedSlash then Z.of_nat n
        else dirname_loop path m matchedSlash
      else dirname_loop path m false
  end.

Definition dirname (path : string) : string :=
  if (String.length path =? 0)%nat then "."
  else
    let hasRoot := is_slash (String.get 0 path) in
    let end_ := dirname_loop path (String.length path - 1) true in
    if (end_ =? -1)%Z then (if hasRoot then "/" else ".")
    else if hasRoot && (end_ =? 1)%Z then "//"
    else slice path 0 end_.

(** *** [basename] *)

(** [basename(path)] without a suffix. *)
Record BaseState := mkBase {
  b_start : Z;
  b_end : Z;
  b_matchedSlash : bool
}.

(** [n] is one more than the index under examination. *)
Fixpoint basename_loop (path : string) (n : nat) (st : BaseState) : BaseState :=
  match n with
  | O => st
  | S i =>
      if is_slash (String.get i path) then
        if negb (b_matchedSlash st)
        then mkBase (Z.of_nat i + 1) (b_end st) (b_matchedSlash st)
        else basename_loop path i st
      else if (b_end st =? -1)%Z
        then basename_loop path i (mkBase (b_start st) (Z.of_nat i + 1) false)
        else basename_loop path i st
  end.

Definition basename (path : string) : string :=
  let st := basename_loop path (String.length path) (mkBase 0 (-1) true) in
  if (b_end st =? -1)%Z then "" else slice path (b_start st) (b_end st).

(** [basename(path, suffix)]. *)
Record SuffixState := mkSuffix {
  s_start : Z;
  s_end : Z;
  s_matchedSlash : bool;
  s_extIdx : Z;
  s_firstNonSlashEnd : Z
}.

Fixpoint basename_suffix_loop (path suffix : string) (n : nat)
         (st : SuffixState) : SuffixState :=
  match n with
  | O => st
  | S i =>
      let code := String.get i path in
      if is_slash code then
        if negb (s_matchedSlash st)
        then mkSuffix (Z.of_nat i + 1) (s_end st) (s_matchedSlash st)
                      (s_extIdx st) (s_firstNonSlashEnd st)
        else basename_suffix_loop path suffix i st
      else
        let st1 :=
          if (s_firstNonSlashEnd st =? -1)%Z
          then mkSuffix (s_start st) (s_end st) false (s_extIdx st) (Z.of_nat i + 1)
          else st in
        let st2 :=
          if (0 <=? s_extIdx st1)%Z then
            if same_code code (charAt suffix (s_extIdx st1)) then
              let extIdx' := (s_extIdx st1 - 1)%Z in
              if (extIdx' =? -1)%Z
              then mkSuffix (s_start st1) (Z.of_nat i) (s_matchedSlash st1)
                            extIdx' (s_firstNonSlashEnd st1)
              else mkSuffix (s_start st1) (s_end st1) (s_matchedSlash st1)
                            extIdx' (s_firstNonSlashEnd st1)
            else mkSuffix (s_start st1) (s_firstNonSlashEnd st1) (s_matchedSlash st1)
                          (-1) (s_firstNonSlashEnd st1)
          else st1 in
        basename_suffix_loop path suffix i st2
  end.

Definition basename_suffix (path suffix : string) : string :=
  if (0 <? String.length suffix)%nat && (String.length suffix <=? String.length path)%nat
  then
    if String.eqb suffix path then ""
    else
      let st := basename_suffix_loop path suffix (String.length path)
                  (mkSuffix 0 (-1) true (len suffix - 1) (-1)) in
      let end_ :=
        if (s_start st =? s_end st)%Z then s_firstNonSlashEnd st
        else if (s_end st =? -1)%Z then len path
        else s_end st in
      slice path (s_start st) end_
  else basename path.

(** *** [parse(path).name] *)

Record ParseState := mkParse {
  p_startDot : Z;
  p_startPart : Z;
  p_end : Z;
  p_matchedSlash : bool;
  p_preDotState : Z
}.

(** The loop [for (; i >= start; --i)]; [n] counts the indices left, the
    index under examination is [start + n - 1]. *)
Fixpoint parse_loop (path : string) (start n : nat) (st : ParseState) : ParseState :=
  match n with
  | O => st
  | S m =>
      let i := (start + m)%nat in
      let code := String.get i path in
      if is_slash code then
        if negb (p_matchedSlash st)
        then mkParse (p_startDot st) (Z.of_nat i + 1) (p_end st)
                     (p_matchedSlash st) (p_preDotState st)
        else parse_loop path start m st
      else
        let st1 :=
          if (p_end st =? -1)%Z
          then mkParse (p_startDot st) (p_startPart st) (Z.of_nat i + 1) false
                       (p_preDotState st)
          else st in
        let st2 :=
          if is_dot code then
            if (p_startDot st1 =? -1)%Z
            then mkParse (Z.of_nat i) (p_startPart st1) (p_end st1)
                         (p_matchedSlash st1) (p_preDotState st1)
            else if negb (p_preDotState st1 =? 1)%Z
            then mkParse (p_startDot st1) (p_startPart st1) (p_end st1)
                         (p_matchedSlash st1) 1
            else st1
          else if negb (p_startDot st1 =? -1)%Z
            then mkParse (p_startDot st1) (p_startPart st1) (p_end st1)
                         (p_matchedSlash st1) (-1)
            else st1 in
        parse_loop path start m st2
  end.

Definition parse_name (path : string) : string :=
  if (String.length path =? 0)%nat then ""
  else
    let isAbsolute := is_slash (String.get 0 path) in
    let start := if isAbsolute then 1%nat else 0%nat in
    let st := parse_loop path start (String.length path - start)
                (mkParse (-1) 0 (-1) true 0) in
    if negb (p_end st =? -1)%Z then
      let start' := if (p_startPart st =? 0)%Z && isAbsolute then 1%Z
                    else p_startPart st in
      if (p_startDot st =? -1)%Z
         || (p_preDotState st =? 0)%Z
         || ((p_preDotState st =? 1)%Z
             && (p_startDot st =? p_end st - 1)%Z
             && (p_startDot st =? p_startPart st + 1)%Z)
      then slice path start' (p_end st)
      else slice path start' (p_startDot st)
    else "".

(** *** [normalize] and [join] *)

(** The segments of a path between separators, empty ones included. *)
Fixpoint split_slash (cur : string) (s : string) : list string :=
  match s with
  | EmptyString => [cur]
  | String c rest =>
      if Ascii.eqb c "/" then cur :: split_slash "" rest
      else split_slash (cur ++ String c "") rest
  end.

(** [normalizeString]: the result is kept as the stack of its segments,
    last one first.  An empty segment and ["."] are dropped, [".."]
    removes the last segment unless there is none or it is [".."]
    itself, in which case it is kept when the path is relative. *)
Fixpoint normalize_segments (allowAboveRoot : bool) (segs : list string)
         (res : list string) : list string :=
  match segs with
  | [] => res
  | seg :: rest =>
      if String.eqb seg "" || String.eqb seg "." then
        normalize_segments allowAboveRoot rest res
      else if String.eqb seg ".." then
        match res with
        | top :: below =>
            if String.eqb top ".."
            then normalize_segments allowAboveRoot rest
                   (if allowAboveRoot then ".." :: res else res)
            else normalize_segments allowAboveRoot rest below
        | [] =>
            normalize_segments allowAboveRoot rest
              (if allowAboveRoot then [".."] else [])
        end
      else normalize_segments allowAboveRoot rest (seg :: res)
  end.

Definition normalizeString (path : string) (allowAboveRoot : bool) : string :=
  String.concat "/" (rev (normalize_segments allowAboveRoot (split_slash "" path) [])).

Definition normalize (path : string) : string :=
  if (String.length path =? 0)%nat then "."
  else
    let isAbsolute := is_slash (String.get 0 path) in
    let trailingSeparator := is_slash (String.get (String.length path - 1) path) in
    let p := normalizeString path (negb isAbsolute) in
    if (String.length p =? 0)%nat then
      if isAbsolute then "/"
      else if trailingSeparator then "./" else "."
    else
      let p := if trailingSeparator then p ++ "/" else p in
      if isAbsolute then "/" ++ p else p.

Definition join (args : list string) : string :=
  match filter (fun a => (0 <? String.length a)%nat) args with
  | [] => "."
  | parts => normalize (String.concat "/" parts)
  end.

(** *** Argument validation

    The functions check [typeof path === 'string'] first and throw a
    [TypeError] otherwise; [argv.output as string] is only a cast and
    lets [undefined] through. *)
Definition invalid_arg_type : string :=
  "TypeError [ERR_INVALID_ARG_TYPE]: The " ++ dq ++ "path" ++ dq
  ++ " argument must be of type string. Received undefined".

Definition validateString (v : JsString) : string + string :=
  match v with
  | Some s => inl s
  | None => inr invalid_arg_type
  end.

End Path.

(** ** Calls into the outside world *)

(** Element and file-chooser handles are opaque tokens handed out by the
    browser driver. *)
Definition Handle := nat.

(** What [dotenv.config] leaves behind: its [error] field (rendered as
    text) and the two variables of [process.env] the script reads right
    after the call. *)
Record DotenvOutput := mkDotenv {
  error : JsString;
  EW_USERNAME : JsString;
  EW_PASSWORD : JsString
}.

Inductive Call : Type :=
  (* fs *)
  | ExistsSync (p : string)
  | LstatIsDirectory (p : string)
  | MkdirSync (p : string) (recursive : bool)
  | CreateWriteStream (p : string)
  (* dotenv, prompts *)
  | DotenvConfig (p : JsString)
  | Prompt (type name message : string)
  (* archiver *)
  | Archiver (format : string)
  | ArchiveOn (event : string)
  | ArchivePipe
  | ArchiveDirectory (p : string)
  | ArchiveFinalize
  (* puppeteer *)
  | Launch (headless : bool) (slowMo : Z)
  | NewPage
  | Goto (url waitUntil : string)
  | SetDefaultTimeout (ms : Z)
  | WaitForSelector (selector : string) (visible : bool)
  | WaitForTimeout (ms : Z)
  | ElementClick (h : Handle)
  | ElementType (h : Handle) (text : JsString)
  | PageClick (selector : string)
  | WaitForFileChooser
  | FileChooserAccept (fc : Handle) (files : list string)
  | ElementHref (h : Handle)
  | BrowserClose
  (* download *)
  | Download (url dir filename : string).

(** The type of the value a call resolves to. *)
Definition ret_ty (c : Call) : Type :=
  match c with
  | ExistsSync _ | LstatIsDirectory _ => bool
  | DotenvConfig _ => DotenvOutput
  | Prompt _ _ _ => JsString
  | WaitForSelector _ _ | WaitForFileChooser => Handle
  | ElementHref _ => string
  | _ => unit
  end.

(** A call resolves to a value or throws; the thrown value is kept as the
    text a template literal would print for it. *)
Inductive Result (A : Type) : Type :=
  | Ok (v : A)
  | Throws (e : string).
Arguments Ok {A} v.
Arguments Throws {A} e.

(** ** Traces *)

Inductive Level := Log | Info | Warn | Error.

Inductive Event : Type :=
  | Console (l : Level) (msg : string)
  | Called (c : Call) (ok : bool).

(** How a computation ends: it returns, it throws (at top level: an
    unhandled rejection), or it calls [process.exit]. *)
Inductive Outcome (A : Type) : Type :=
  | Returned (a : A)
  | Threw (e : string)
  | Exited (code : Z).
Arguments Returned {A} a.
Arguments Threw {A} e.
Arguments Exited {A} code.

Record Run (W A : Type) := mkRun {
  outcome : Outcome A;
  world : W;
  trace : list Event
}.
Arguments mkRun {W A} _ _ _.
Arguments outcome {W A} _.
Arguments world {W A} _.
Arguments trace {W A} _.

(** The parsed command line, the script's global [argv]. *)
Module Argv.
Record t := mk {
  path : string;
  env : JsString;
  username : string;
  password : string;
  output : JsString;
  headless : bool;
  timeout : Z
}.
End Argv.

(** Observations on traces. *)

Definition is_close (e : Event) : bool :=
  match e with Called BrowserClose _ => true | _ => false end.

Definition is_browser_call (c : Call) : bool :=
  match c with
  | Launch _ _ | NewPage | Goto _ _ | SetDefaultTimeout _ | WaitForSelector _ _
  | WaitForTimeout _ | ElementClick _ | ElementType _ _ | PageClick _
  | WaitForFileChooser | FileChooserAccept _ _ | ElementHref _ | BrowserClose => true
  | _ => false
  end.

Definition is_prompt_for (field : string) (e : Event) : bool :=
  match e with
  | Called (Prompt _ name _) _ => String.eqb name field
  | _ => false
  end.

Definition is_prompt (e : Event) : bool :=
  match e with Called (Prompt _ _ _) _ => true | _ => false end.

(** Number of times the session was closed. *)
Definition closes (tr : list Event) : nat := length (filter is_close tr).

(** Number of prompts for a given field. *)
Definition prompts_for (field : string) (tr : list Event) : nat :=
  length (filter (is_prompt_for field) tr).

(** The console output alone. *)
Fixpoint console_output (tr : list Event) : list (Level * string) :=
  match tr with
  | [] => []
  | Console l m :: rest => (l, m) :: console_output rest
  | Called _ _ :: rest => console_output rest
  end.

(** The calls alone, with whether they resolved. *)
Fixpoint calls (tr : list Event) : list (Call * bool) :=
  match tr with
  | [] => []
  | Console _ _ :: rest => calls rest
  | Called c ok :: rest => (c, ok) :: calls rest
  end.

(** ** The monad of the script *)

Section Monad.

(** The outside world: a state and a deterministic answer to every
    call. *)
Variable W : Type.
Variable respond : forall c : Call, W -> Result (ret_ty c) * W.

Definition M (A : Type) : Type := W -> Run W A.

Definition ret {A} (a : A) : M A := fun w => mkRun (Returned a) w [].

Definition bind {A B} (m : M A) (f : A -> M B) : M B :=
  fun w =>
    match m w with
    | mkRun (Returned a) w1 t1 =>
        match f a w1 with
        | mkRun o w2 t2 => mkRun o w2 (t1 ++ t2)
        end
    | mkRun (Threw e) w1 t1 => mkRun (Threw e) w1 t1
    | mkRun (Exited code) w1 t1 => mkRun (Exited code) w1 t1
    end.

Definition throw {A} (e : string) : M A := fun w => mkRun (Threw e) w [].

(** [process.exit(code)] *)
Definition process_exit {A} (code : Z) : M A := fun w => mkRun (Exited code) w [].

(** [console.log], [console.info], [console.warn], [console.error] *)
Definition console (l : Level) (msg : string) : M unit :=
  fun w => mkRun (Returned tt) w [Console l msg].

(** An awaited call into the world. *)
Definition call (c : Call) : M (ret_ty c) :=
  fun w =>
    match respond c w with
    | (Ok v, w') => mkRun (Returned v) w' [Called c true]
    | (Throws e, w') => mkRun (Threw e) w' [Called c false]
    end.

(** [try { m } catch (e) { h e }]; [process.exit] is not an exception. *)
Definition try_catch {A} (m : M A) (h : string -> M A) : M A :=
  fun w =>
    match m w with
    | mkRun (Threw e) w1 t1 =>
        match h e w1 with
        | mkRun o w2 t2 => mkRun o w2 (t1 ++ t2)
        end
    | r => r
    end.

(** A promise that is started but not yet awaited: its settlement is
    kept as a value. *)
Definition settle {A} (m : M A) : M (Result A) :=
  try_catch (bind m (fun a => ret (Ok a))) (fun e => ret (Throws e)).

(** A [path] function applied to a value that may be [undefined]. *)
Definition path_call {A} (f : string -> A) (v : JsString) : M A :=
  match Path.validateString v with
  | inl s => ret (f s)
  | inr e => throw e
  end.

End Monad.

Arguments ret {W A} a _.
Arguments bind {W A B} m f _.
Arguments throw {W A} e _.
Arguments process_exit {W A} code _.
Arguments console {W} l msg _.
Arguments call {W} respond c _.
Arguments try_catch {W A} m h _.
Arguments settle {W A} m _.
Arguments path_call {W A} f v _.

Notation "x <- m ;; k" := (bind m (fun x => k))
  (at level 61, m at next level, right associativity).
Notation "m ;; k" := (bind m (fun _ => k))
  (at level 61, right associativity).
Notation "' pat <- m ;; k" := (bind m (fun x => let 'pat := x in k))
  (at level 61, pat pattern, m at next level, right associativity).

(** ** The script *)

Section Script.

Variable W : Type.
Variable respond : forall c : Call, W -> Result (ret_ty c) * W.

(** The script's global [argv]. *)
Variable argv : Argv.t.

Local Abbreviation call := (call respond).

(** *** [getCredentials] *)

Definition getCredentials : M W (JsString * JsString) :=
  let username : JsString := Some (Argv.username argv) in
  let password : JsString := Some (Argv.password argv) in
  '(username, password) <-
    match Argv.env argv with
    | Some env =>
        let envPath := if (0 <? String.length env)%nat then env else ".env" in
        envFound <- call (DotenvConfig (Some envPath)) ;;
        match error envFound with
        | Some err =>
            console Error ("Specified --env option but cannot load .env (" ++ err ++ ")") ;;
            process_exit 1
        | None =>
            if negb (truthy (EW_USERNAME envFound)) then
              console Error "Specified --env option but the EW_USERNAME variable is missing" ;;
              process_exit 1
            else if negb (truthy (EW_PASSWORD envFound)) then
              console Error "`Specified --env option but the EW_PASSWORD variable is missing" ;;
              process_exit 1
            else ret (EW_USERNAME envFound, EW_PASSWORD envFound)
        end
    | None => ret (username, password)
    end ;;
  username <-
    (if negb (truthy username)
     then call (Prompt "text" "username" "Extension Warehouse username")
     else ret username) ;;
  password <-
    (if negb (truthy password)
     then call (Prompt "password" "password" "Extension Warehouse password")
     else ret password) ;;
  ret (username, password).

(** *** [zip]

    The two handlers given to [archive.on] run when the archiver reports
    a problem, outside the sequence of awaited steps; only their
    registration is part of the line followed here.  [archive.finalize()]
    is not awaited either. *)

Definition zip (output : JsString) : M W string :=
  found <- call (ExistsSync (Argv.path argv)) ;;
  invalid <-
    (if negb found then ret true
     else (isDir <- call (LstatIsDirectory (Argv.path argv)) ;; ret (negb isDir))) ;;
  (if invalid : bool then
     console Error ("The target path " ++ dq ++ Argv.path argv ++ dq ++ " is not a directory") ;;
     process_exit 0
   else ret tt) ;;
  call (Archiver "zip") ;;
  call (ArchiveOn "warning") ;;
  call (ArchiveOn "error") ;;
  dir <- path_call Path.dirname output ;;
  name <- path_call Path.parse_name output ;;
  let rbzPath := Path.join [dir; name] ++ "_not_signed.rbz" in
  call (CreateWriteStream rbzPath) ;;
  call ArchivePipe ;;
  call (ArchiveDirectory (Argv.path argv)) ;;
  call ArchiveFinalize ;;
  console Info ("The extension has been archived in " ++ dq ++ rbzPath ++ dq) ;;
  ret rbzPath.

(** *** [search] *)

Definition search (targetName : string) (selector : string) : M W Handle :=
  console Log ("Searching " ++ targetName ++ "...") ;;
  try_catch
    (call (WaitForSelector selector true))
    (fun e =>
       console Error ("cannot find " ++ targetName ++ ": " ++ e) ;;
       process_exit 1).

(** *** [sign] *)

(** The destination of the download, computed from the archive path. *)
Definition outputPath (rbzPath : string) : string :=
  Path.join [Path.dirname rbzPath;
             Path.basename_suffix rbzPath "_not_signed.rbz" ++ "_signed.rbz"].

Definition sign (rbzPath : string) (username password : JsString) : M W unit :=
  console Info "Starting the signing process..." ;;
  call (Launch (Argv.headless argv) 10) ;;
  call NewPage ;;
  call (Goto "https://extensions.sketchup.com/extension/sign" "networkidle0") ;;
  call (SetDefaultTimeout (Argv.timeout argv)) ;;
  (* Sign in *)
  signinButton <- search "sign in button" ".intro-section button" ;;
  call (ElementClick signinButton) ;;
  emailIntput <- search "e-mail input" "input[id=email]" ;;
  call (ElementType emailIntput username) ;;
  call (PageClick "input[id=next]") ;;
  passwordInput <- search "password input" "input[id=password]" ;;
  call (ElementType passwordInput password) ;;
  call (PageClick "input[id=submit]") ;;
  (* Upload *)
  signButton <- search "sign button" ".intro-section button" ;;
  call (ElementClick signButton) ;;
  call (WaitForTimeout 10000) ;;
  browseButton <- search "browse button" "label[for=file]" ;;
  chooser <- settle (call WaitForFileChooser) ;;
  clicked <- settle (call (ElementClick browseButton)) ;;
  fileChooser <-
    match chooser, clicked with
    | Ok fc, Ok _ => ret fc
    | Throws e, _ => throw e
    | Ok _, Throws e => throw e
    end ;;
  call (FileChooserAccept fileChooser [rbzPath]) ;;
  nextButton <- search "next button 1" ".md-modal:nth-child(1) button.primary" ;;
  call (ElementClick nextButton) ;;
  nextButton2 <- search "next button 2" ".md-modal:nth-child(2) button.primary" ;;
  call (ElementClick nextButton2) ;;
  (* Download *)
  downloadButton <- search "download link" "a.link-button" ;;
  downloadUrl <- call (ElementHref downloadButton) ;;
  console Log ("Downloading " ++ downloadUrl ++ "...") ;;
  let outputPath := outputPath rbzPath in
  try_catch
    (call (Download downloadUrl (Path.dirname outputPath) (Path.basename outputPath)))
    (fun _ => console Error "Download failed!") ;;
  console Info ("Downloaded to " ++ dq ++ outputPath ++ dq) ;;
  call BrowserClose ;;
  ret tt.

(** *** [main] *)

(** The block of [main] headed "Create the output directory". *)
Definition createOutputDir (output : JsString) : M W unit :=
  if truthy output then
    outputDir <- path_call Path.dirname output ;;
    found <- call (ExistsSync outputDir) ;;
    if negb found then call (MkdirSync outputDir true) else ret tt
  else ret tt.

Definition main : M W unit :=
  let output := Argv.output argv in
  createOutputDir output ;;
  '(username, password) <- getCredentials ;;
  rbzPath <- zip output ;;
  sign rbzPath username password.

End Script.

Arguments getCredentials {W} respond argv _.
Arguments zip {W} respond argv output _.
Arguments search {W} respond targetName selector _.
Arguments sign {W} respond argv rbzPath username password _.
Arguments createOutputDir {W} respond output _.
Arguments main {W} respond argv _.

(** ** The earlier revision of the script

    In the first revision [--env] is a boolean switch and [config()] is
    called without a path; the credentials are otherwise resolved the same
    way. *)

Module Legacy.
Section Script.

Variable W : Type.
Variable respond : forall c : Call, W -> Result (ret_ty c) * W.

(** [argv.env], [argv.username], [argv.password] *)
Variable env : bool.
Variable username_flag password_flag : string.

Local Abbreviation call := (call respond).

Definition getCredentials : M W (JsString * JsString) :=
  let username : JsString := Some username_flag in
  let password : JsString := Some password_flag in
  '(username, password) <-
    (if env then
       envFound <- call (DotenvConfig None) ;;
       match error envFound with
       | Some err =>
           console Error ("Specified --env option but cannot load .env (" ++ err ++ ")") ;;
           process_exit 1
       | None =>
           if negb (truthy (EW_USERNAME envFound)) then
             console Error "Specified --env option but the EW_USERNAME variable is missing" ;;
             process_exit 1
           else if negb (truthy (EW_PASSWORD envFound)) then
             console Error "`Specified --env option but the EW_PASSWORD variable is missing" ;;
             process_exit 1
           else ret (EW_USERNAME envFound, EW_PASSWORD envFound)
       end
     else ret (username, password)) ;;
  username <-
    (if negb (truthy username)
     then call (Prompt "text" "username" "Extension Warehouse username")
     else ret username) ;;
  password <-
    (if negb (truthy password)
     then call (Prompt "password" "password" "Extension Warehouse password")
     else ret password) ;;
  ret (username, password).

End Script.
Arguments getCredentials {W} respond env username_flag password_flag _.
End Legacy.

(** ** Concrete worlds

    A scenario fixes what the disk, the dotenv file, the operator and the
    portal answer.  Its state counts the calls made so far; fresh handles
    are numbered with it. *)

Record Scenario := mkScenario {
  fails : Call -> option string;
  on_disk : string -> bool;
  is_directory : string -> bool;
  dotenv : DotenvOutput;
  typed : string -> JsString;
  href : string
}.

Definition answer (sc : Scenario) (c : Call) (n : nat) : ret_ty c :=
  match c return ret_ty c with
  | ExistsSync p => on_disk sc p
  | LstatIsDirectory p => is_directory sc p
  | DotenvConfig _ => dotenv sc
  | Prompt _ name _ => typed sc name
  | WaitForSelector _ _ => n
  | WaitForFileChooser => n
  | ElementHref _ => href sc
  | _ => tt
  end.

Definition scenario (sc : Scenario) (c : Call) (n : nat) : Result (ret_ty c) * nat :=
  match fails sc c with
  | Some e => (Throws e, S n)
  | None => (Ok (answer sc c n), S n)
  end.

(** Everything works: the folder exists, the dotenv file holds both
    variables, the operator types something, every element shows up. *)
Definition all_good : Scenario :=
  mkScenario (fun _ => None) (fun _ => true) (fun _ => true)
    (mkDotenv None (Some "env@user.com") (Some "env-secret"))
    (fun name => Some ("typed-" ++ name))
    "https://extensions.sketchup.com/signed/widget.rbz".

Definition fails_when (bad : Call -> option string) (sc : Scenario) : Scenario :=
  mkScenario bad (on_disk sc) (is_directory sc) (dotenv sc) (typed sc) (href sc).

(** [my_extension --username a@b.com --password secret --output out/widget.rbz] *)
Definition argv_flags : Argv.t :=
  Argv.mk "my_extension" None "a@b.com" "secret" (Some "out/widget.rbz") false 60000.


(** [my_extension --env --username a@b.com --password secret --output out/widget.rbz] *)
Definition argv_flags_env : Argv.t :=
  Argv.mk "my_extension" (Some "") "a@b.com" "secret" (Some "out/widget.rbz") false 60000.

(** [my_extension --output out/widget.rbz] *)
Definition argv_bare : Argv.t :=
  Argv.mk "my_extension" None "" "" (Some "out/widget.rbz") false 60000.

(** [my_extension --username a@b.com --password secret] *)
Definition argv_no_output : Argv.t :=
  Argv.mk "my_extension" None "a@b.com" "secret" None false 60000.

(** ** The submission state machine of the design

    The script has no state variable.  The states below are those of the
    design's transition contract; a run of [sign] is read against it
    through the calls it makes. *)

Module Submission.

Inductive State :=
  | Idle | Authenticating | Initiating | Uploading
  | AwaitingProcessing | Downloading | Complete | Failed.

Definition state_eqb (a b : State) : bool :=
  match a, b with
  | Idle, Idle | Authenticating, Authenticating | Initiating, Initiating
  | Uploading, Uploading | AwaitingProcessing, AwaitingProcessing
  | Downloading, Downloading | Complete, Complete | Failed, Failed => true
  | _, _ => false
  end.

(** The non-terminal states, in the order of the contract. *)
Definition order : list State :=
  [Idle; Authenticating; Initiating; Uploading; AwaitingProcessing; Downloading].

Definition terminal (s : State) : bool :=
  match s with Complete | Failed => true | _ => false end.

Definition next (s : State) : State :=
  match s with
  | Idle => Authenticating
  | Authenticating => Initiating
  | Initiating => Uploading
  | Uploading => AwaitingProcessing
  | AwaitingProcessing => Downloading
  | Downloading => Complete
  | Complete => Complete
  | Failed => Failed
  end.

(** What a call does, whatever its target. *)
Inductive Action :=
  | Open        (* create the session: launch, new page *)
  | Navigate
  | Configure   (* set a session attribute *)
  | Locate
  | Click
  | Fill
  | Settle
  | Chooser
  | Supply
  | ReadRef
  | Fetch
  | Teardown
  | Foreign.    (* not an action of the submission flow *)

Definition action_of (c : Call) : Action :=
  match c with
  | Launch _ _ | NewPage => Open
  | Goto _ _ => Navigate
  | SetDefaultTimeout _ => Configure
  | WaitForSelector _ _ => Locate
  | ElementClick _ | PageClick _ => Click
  | ElementType _ _ => Fill
  | WaitForTimeout _ => Settle
  | WaitForFileChooser => Chooser
  | FileChooserAccept _ _ => Supply
  | ElementHref _ => ReadRef
  | Download _ _ _ => Fetch
  | BrowserClose => Teardown
  | _ => Foreign
  end.

Definition action_eqb (a b : Action) : bool :=
  match a, b with
  | Open, Open | Navigate, Navigate | Configure, Configure | Locate, Locate
  | Click, Click | Fill, Fill | Settle, Settle | Chooser, Chooser
  | Supply, Supply | ReadRef, ReadRef | Fetch, Fetch | Teardown, Teardown
  | Foreign, Foreign => true
  | _, _ => false
  end.

(** The actions a state performs before it is left, in order
    (transition contract, steps 1 to 7):
    - [Idle]: the session is created and navigated to the portal;
    - [Authenticating]: sign-in affordance, identity field and continue,
      secret field and submit, then the begin-submission affordance;
    - [Initiating]: settle delay, then the file chooser is opened and fed;
    - [Uploading]: the two modal confirmations;
    - [AwaitingProcessing]: the result link is awaited and its reference read;
    - [Downloading]: the fetch. *)
Definition contract (s : State) : list Action :=
  match s with
  | Idle => [Open; Open; Navigate]
  | Authenticating =>
      [Locate; Click; Locate; Fill; Click; Locate; Fill; Click; Locate; Click]
  | Initiating => [Settle; Locate; Chooser; Click; Supply]
  | Uploading => [Locate; Click; Locate; Click]
  | AwaitingProcessing => [Locate; ReadRef]
  | Downloading => [Fetch]
  | Complete | Failed => []
  end.

(** Where a run stands: its state and what the state still has to do. *)
Record Config := mkConfig { state : State; todo : list Action }.

Definition enter (s : State) : Config := mkConfig s (contract s).

(** One call of the run.  Terminal states absorb whatever follows
    (teardown).  Setting a session attribute advances nothing.  A failed
    call leads to [Failed] (step 8), except the fetch, whose failure is
    only reported (step 7).  A call the contract does not expect at this
    point is refused. *)
Definition step (cf : Config) (ev : Call * bool) : option Config :=
  let (c, ok) := ev in
  if terminal (state cf) then Some cf
  else
    let a := action_of c in
    if action_eqb a Configure then Some (if ok then cf else enter Failed)
    else
      match todo cf with
      | [] => None
      | expected :: rest =>
          if action_eqb a expected then
            if ok || action_eqb a Fetch then
              match rest with
              | [] => Some (enter (next (state cf)))
              | _ => Some (mkConfig (state cf) rest)
              end
            else Some (enter Failed)
          else None
      end.

(** The configurations a sequence of calls goes through, the starting
    one included; [None] when a call is refused. *)
Fixpoint follow (cf : Config) (evs : list (Call * bool)) : option (list Config) :=
  match evs with
  | [] => Some [cf]
  | ev :: rest =>
      match step cf ev with
      | None => None
      | Some cf' =>
          match follow cf' rest with
          | None => None
          | Some l => Some (cf :: l)
          end
      end
  end.

(** The states visited, each listed once per stay. *)
Fixpoint stays (l : list State) : list State :=
  match l with
  | [] => []
  | s :: rest =>
      match rest with
      | s' :: _ => if state_eqb s s' then stays rest else s :: stays rest
      | [] => [s]
      end
  end.

Definition visited (tr : list Event) : option (list State) :=
  match follow (enter Idle) (calls tr) with
  | None => None
  | Some l => Some (stays (map state l))
  end.

End Submission.

(** Scenarios with a fault injected. *)

Definition never_visible (selector : string) (c : Call) : option string :=
  match c with
  | WaitForSelector sel _ =>
      if String.eqb sel selector
      then Some ("TimeoutError: waiting for selector " ++ sel ++ " failed: timeout 60000ms exceeded")
      else None
  | _ => None
  end.

Definition download_breaks (c : Call) : option string :=
  match c with
  | Download _ _ _ => Some "RequestError: socket hang up"
  | _ => None
  end.

(** The sign-in button never becomes visible. *)
Definition button_never_shows : Scenario :=
  fails_when (never_visible ".intro-section button") all_good.

(** The portal never offers the download link. *)
Definition link_never_shows : Scenario :=
  fails_when (never_visible "a.link-button") all_good.

(** Everything works up to the download, which breaks. *)
Definition download_fails : Scenario := fails_when download_breaks all_good.

(** More observations on traces. *)

Definition failed_download (e : Event) : bool :=
  match e with Called (Download _ _ _) false => true | _ => false end.

Definition failed_close (e : Event) : bool :=
  match e with Called BrowserClose false => true | _ => false end.

(** ** Observations used by the statements *)

Definition is_download (c : Call) : bool :=
  match c with Download _ _ _ => true | _ => false end.

(** A call of the signing flow: the browser or the download. *)
Definition is_flow_event (e : Event) : bool :=
  match e with
  | Called c _ => is_browser_call c || is_download c
  | Console _ _ => false
  end.

Definition not_flow_event (e : Event) : bool := negb (is_flow_event e).

(** The download, if this event is one, goes to [dir]/[filename]. *)
Definition downloads_to (dir filename : string) (e : Event) : bool :=
  match e with
  | Called (Download _ d f) _ => String.eqb d dir && String.eqb f filename
  | _ => true
  end.

(** The archive path [zip] derives from the output path. *)
Definition archive_path (output : string) : string :=
  Path.join [Path.dirname output; Path.parse_name output] ++ "_not_signed.rbz".

Definition handler_registered (e : Event) : bool :=
  match e with
  | Called (ArchiveOn ev) true => String.eqb ev "error"
  | _ => false
  end.

Definition usable (d : DotenvOutput) : bool :=
  match error d with
  | Some _ => false
  | None => truthy (EW_USERNAME d) && truthy (EW_PASSWORD d)
  end.

(** Claims of the design read on runs. *)

(** The session is closed exactly once. *)
Definition closed_exactly_once {W A} (r : Run W A) : Prop :=
  closes (trace r) = 1.

(** The error of a failed wait reaches the caller of [search] as an
    exception. *)
Definition propagated_to_caller {W A} (r : Run W A) : Prop :=
  exists e, outcome r = Threw e.

(** Flags, when given, are what [getCredentials] returns. *)
Definition flags_take_priority {W} respond (argv : Argv.t) (w : W) : Prop :=
  forall u p,
    outcome (getCredentials respond argv w) = Returned (u, p) ->
    (truthy (Some (Argv.username argv)) = true -> u = Some (Argv.username argv)) /\
    (truthy (Some (Argv.password argv)) = true -> p = Some (Argv.password argv)).

(** Every download of the run is written to the path [o] itself. *)
Definition downloads_to_exact_path (o : string) (tr : list Event) : Prop :=
  forall url dir filename ok,
    In (Called (Download url dir filename) ok) tr -> Path.join [dir; filename] = o.

(** A run whose credentials come out with an empty or undefined field
    makes no call of the signing flow. *)
Definition stops_without_credentials {W} respond (argv : Argv.t) (w : W) : Prop :=
  forall u p,
    outcome (getCredentials respond argv
               (world (createOutputDir respond (Argv.output argv) w))) = Returned (u, p) ->
    truthy u && truthy p = false ->
    forallb not_flow_event (trace (main respond argv w)) = true.

(** More scenarios. *)

(** The operator presses Enter at both prompts. *)
Definition empty_answers : Scenario :=
  mkScenario (fun _ => None) (fun _ => true) (fun _ => true)
    (dotenv all_good) (fun _ => Some "") (href all_good).

(** The dotenv file has no [EW_PASSWORD]. *)
Definition no_password_in_env : Scenario :=
  mkScenario (fun _ => None) (fun _ => true) (fun _ => true)
    (mkDotenv None (Some "env@user.com") None) (typed all_good) (href all_good).

(** The extension folder is not there; the output folder is. *)
Definition folder_missing : Scenario :=
  mkScenario (fun _ => None) (fun p => negb (String.eqb p "no_such_folder"))
    (fun _ => true) (dotenv all_good) (typed all_good) (href all_good).

(** [no_such_folder --username a@b.com --password secret --output out/widget.rbz] *)
Definition argv_missing_folder : Argv.t :=
  Argv.mk "no_such_folder" None "a@b.com" "secret" (Some "out/widget.rbz") false 60000.

(** ** Further observations on traces *)

(** The texts typed into elements, in order. *)
Fixpoint typed_texts (tr : list Event) : list JsString :=
  match tr with
  | [] => []
  | Called (ElementType _ text) _ :: rest => text :: typed_texts rest
  | _ :: rest => typed_texts rest
  end.

(** The file lists handed to a file chooser, in order. *)
Fixpoint uploads (tr : list Event) : list (list string) :=
  match tr with
  | [] => []
  | Called (FileChooserAccept _ files) _ :: rest => files :: uploads rest
  | _ :: rest => uploads rest
  end.

(** The paths a write stream was opened on, in order. *)
Fixpoint written (tr : list Event) : list string :=
  match tr with
  | [] => []
  | Called (CreateWriteStream p) _ :: rest => p :: written rest
  | _ :: rest => written rest
  end.

(** The paths given to [dotenv.config], in order. *)
Fixpoint dotenv_loads (tr : list Event) : list JsString :=
  match tr with
  | [] => []
  | Called (DotenvConfig p) _ :: rest => p :: dotenv_loads rest
  | _ :: rest => dotenv_loads rest
  end.

(** The lines printed with [console.error]. *)
Fixpoint error_lines (tr : list Event) : list string :=
  match tr with
  | [] => []
  | Console Error msg :: rest => msg :: error_lines rest
  | _ :: rest => error_lines rest
  end.

Definition is_download_event (e : Event) : bool :=
  match e with Called (Download _ _ _) _ => true | _ => false end.

(** [l] ends with [suffix]. *)
Definition ends_with {A} (suffix l : list A) : Prop :=
  exists pre, l = (pre ++ suffix)%list.

(** Reads a trace against the default timeout [ms]: [set] tells whether
    it is in force.  The navigation comes while it is not, every wait for
    an element while it is, and it is only ever set to [ms]. *)
Fixpoint timeout_discipline (ms : Z) (set : bool) (tr : list Event) : bool :=
  match tr with
  | [] => true
  | Called (SetDefaultTimeout t) ok :: rest =>
      Z.eqb t ms && timeout_discipline ms ok rest
  | Called (Goto _ _) _ :: rest => negb set && timeout_discipline ms set rest
  | Called (WaitForSelector _ _) _ :: rest => set && timeout_discipline ms set rest
  | _ :: rest => timeout_discipline ms set rest
  end.

(** The message [zip] prints for an invalid source folder. *)
Definition not_a_directory (p : string) : string :=
  "The target path " ++ dq ++ p ++ dq ++ " is not a directory".

(** The path [getCredentials] loads the dotenv file from. *)
Definition env_path (env : string) : string :=
  if (0 <? String.length env)%nat then env else ".env".

(** The number of prompts for a field once the credentials are resolved. *)
Definition expected_prompts (argv : Argv.t) (flag : string) : nat :=
  match Argv.env argv with
  | Some _ => 0
  | None => if truthy (Some flag) then 0 else 1
  end.

(** A click that the page refuses. *)
Definition click_breaks (c : Call) : option string :=
  match c with
  | PageClick sel => Some ("Error: No node found for selector: " ++ sel)
  | _ => None
  end.

(** The continue button of the sign-in form is not there. *)
Definition next_click_fails : Scenario := fails_when click_breaks all_good.

(** [no_such_folder --output out/widget.rbz], no flags: the operator is
    prompted. *)
Definition argv_missing_folder_bare : Argv.t :=
  Argv.mk "no_such_folder" None "" "" (Some "out/widget.rbz") false 60000.

(** ** Shapes of paths *)

(** A name without separator. *)
Fixpoint no_slash (s : string) : bool :=
  match s with
  | EmptyString => true
  | String c rest => negb (Ascii.eqb c "/") && no_slash rest
  end.

(** A name without separator and without dot. *)
Fixpoint plain (s : string) : bool :=
  match s with
  | EmptyString => true
  | String c rest => negb (Ascii.eqb c "/") && negb (Ascii.eqb c ".") && plain rest
  end.

(** The path [pre ++ body] has its last component [body] when [pre] is
    empty or ends with a separator. *)
Definition is_dir_prefix (pre : string) : Prop :=
  pre = "" \/ exists d, pre = d ++ "/".

(** A segment that [normalize] drops or resolves. *)
Definition special (s : string) : bool :=
  String.eqb s "" || String.eqb s "." || String.eqb s "..".

(** The state of the loop of [parse] on a path [pre ++ n ++ "." ++ e]
    once the indices from [k] on have been examined, for [k] within the
    last component, and the state the loop ends in. *)
Definition parse_state_at (pre n e : string) (k : nat) : Path.ParseState :=
  let dot := String.length pre + String.length n in
  let len := String.length (pre ++ n ++ String "." e) in
  if (len <=? k)%nat then Path.mkParse (-1) 0 (-1) true 0
  else if (dot <? k)%nat then Path.mkParse (-1) 0 (Z.of_nat len) false 0
  else if (dot =? k)%nat then Path.mkParse (Z.of_nat dot) 0 (Z.of_nat len) false 0
  else Path.mkParse (Z.of_nat dot) 0 (Z.of_nat len) false (-1).

Definition parse_state_final (pre n e : string) : Path.ParseState :=
  Path.mkParse (Z.of_nat (String.length pre + String.length n))
    (Z.of_nat (String.length pre))
    (Z.of_nat (String.length (pre ++ n ++ String "." e))) false (-1).

(** The same for the loop of [basename] with a suffix, on a last
    component [n ++ suffix]. *)
Definition suffix_state_at (pre n suffix : string) (k : nat) : Path.SuffixState :=
  let cut := String.length pre + String.length n in
  let len := String.length (pre ++ n ++ suffix) in
  if (len <=? k)%nat
  then Path.mkSuffix 0 (-1) true (Path.len suffix - 1) (-1)
  else if (cut <? k)%nat
  then Path.mkSuffix 0 (-1) false (Z.of_nat k - Z.of_nat cut - 1) (Z.of_nat len)
  else Path.mkSuffix 0 (Z.of_nat cut) false (-1) (Z.of_nat len).

Definition suffix_state_final (pre n suffix : string) : Path.SuffixState :=
  Path.mkSuffix (Z.of_nat (String.length pre))
    (Z.of_nat (String.length pre + String.length n)) false (-1)
    (Z.of_nat (String.length (pre ++ n ++ suffix))).

(** ** The rest of the earlier revision

    The first revision names the archive after the clock and moves files
    with [fs.renameSync]; its [sign] waits for the elements without
    [search].  Its runs are traces of the events above and of renames. *)

Module LegacyFlow.

Inductive Step : Type :=
  | Shared (e : Event)
  | Renamed (oldPath newPath : string) (ok : bool).

Record LRun (W A : Type) := mkLRun {
  loutcome : Outcome A;
  lworld : W;
  ltrace : list Step
}.
Arguments mkLRun {W A} _ _ _.
Arguments loutcome {W A} _.
Arguments lworld {W A} _.
Arguments ltrace {W A} _.

(** The events shared with the later revision, and the renames. *)
Fixpoint shared (tr : list Step) : list Event :=
  match tr with
  | [] => []
  | Shared e :: rest => e :: shared rest
  | Renamed _ _ _ :: rest => shared rest
  end.

Fixpoint renames (tr : list Step) : list (string * string * bool) :=
  match tr with
  | [] => []
  | Shared _ :: rest => renames rest
  | Renamed a b ok :: rest => (a, b, ok) :: renames rest
  end.

(** [`${n}`] for an integral number. *)
Definition number_to_string (n : Z) : string :=
  NilZero.string_of_int (Z.to_int n).

(** The parsed command line of the first revision. *)
Record Argv := mkArgv {
  path : string;
  env : bool;
  username : string;
  password : string;
  output : JsString
}.

Section Monad.

Variable W : Type.

Definition LM (A : Type) : Type := W -> LRun W A.

Definition lret {A} (a : A) : LM A := fun w => mkLRun (Returned a) w [].

Definition lbind {A B} (m : LM A) (f : A -> LM B) : LM B :=
  fun w =>
    match m w with
    | mkLRun (Returned a) w1 t1 =>
        match f a w1 with
        | mkLRun o w2 t2 => mkLRun o w2 (t1 ++ t2)
        end
    | mkLRun (Threw e) w1 t1 => mkLRun (Threw e) w1 t1
    | mkLRun (Exited code) w1 t1 => mkLRun (Exited code) w1 t1
    end.

(** A computation of the shared part, run as it is. *)
Definition lift {A} (m : M W A) : LM A :=
  fun w =>
    match m w with
    | mkRun o w1 t => mkLRun o w1 (map Shared t)
    end.

(** [fs.renameSync(oldPath, newPath)] *)
Variable renameSync : string -> string -> W -> Result unit * W.

Definition rename (oldPath newPath : string) : LM unit :=
  fun w =>
    match renameSync oldPath newPath w with
    | (Ok _, w1) => mkLRun (Returned tt) w1 [Renamed oldPath newPath true]
    | (Throws e, w1) => mkLRun (Threw e) w1 [Renamed oldPath newPath false]
    end.

(** [new Date().getTime()]: reading the clock cannot fail and leaves no
    trace. *)
Variable getTime : W -> Z.

Definition now : LM Z := fun w => mkLRun (Returned (getTime w)) w [].

End Monad.

Arguments lret {W A} a _.
Arguments lbind {W A B} m f _.
Arguments lift {W A} m _.
Arguments rename {W} renameSync oldPath newPath _.
Arguments now {W} getTime _.

Declare Scope legacy_scope.
Notation "x <- m ;; k" := (lbind m (fun x => k))
  (at level 61, m at next level, right associativity) : legacy_scope.
Notation "m ;; k" := (lbind m (fun _ => k))
  (at level 61, right associativity) : legacy_scope.
Notation "' pat <- m ;; k" := (lbind m (fun x => let 'pat := x in k))
  (at level 61, pat pattern, m at next level, right associativity) : legacy_scope.

Section Script.

Variable W : Type.
Variable respond : forall c : Call, W -> Result (ret_ty c) * W.
Variable renameSync : string -> string -> W -> Result unit * W.
Variable getTime : W -> Z.

(** The script's global [argv]. *)
Variable argv : Argv.

Local Abbreviation await c := (lift (call respond c)).
Local Abbreviation print l msg := (lift (console l msg)).
Local Open Scope legacy_scope.

(** *** [zip] *)

Definition zip : LM W string :=
  found <- await (ExistsSync (path argv)) ;;
  invalid <-
    (if negb found then lret true
     else (isDir <- await (LstatIsDirectory (path argv)) ;; lret (negb isDir))) ;;
  (if invalid : bool then
     print Error ("The target path " ++ dq ++ path argv ++ dq ++ " is not a directory") ;;
     lift (process_exit 0)
   else lret tt) ;;
  await (Archiver "zip") ;;
  await (ArchiveOn "warning") ;;
  await (ArchiveOn "error") ;;
  time <- now getTime ;;
  let zipPath := "extension_" ++ number_to_string time ++ ".zip" in
  await (CreateWriteStream zipPath) ;;
  await ArchivePipe ;;
  await (ArchiveDirectory (path argv)) ;;
  await ArchiveFinalize ;;
  (* Rename to rbz *)
  let rbzPath := Path.parse_name zipPath ++ ".rbz" in
  rename renameSync zipPath rbzPath ;;
  print Info ("The extension has been archived in " ++ dq ++ rbzPath ++ dq) ;;
  lret rbzPath.

(** *** [sign] *)

(** The name the download is stored under, in the working directory. *)
Definition outputName (zipPath : string) : string :=
  Path.parse_name zipPath ++ "_signed.rbz".

Definition sign (zipPath : string) (username password : JsString) (output : JsString)
  : LM W unit :=
  print Info "Starting the signing process..." ;;
  await (Launch false 10) ;;
  await NewPage ;;
  await (Goto "https://extensions.sketchup.com/extension/sign" "networkidle0") ;;
  (* Sign in *)
  signinButton <- await (WaitForSelector ".intro-section button" true) ;;
  await (ElementClick signinButton) ;;
  emailIntput <- await (WaitForSelector "input[id=email]" true) ;;
  await (ElementType emailIntput username) ;;
  await (PageClick "input[id=next]") ;;
  passwordInput <- await (WaitForSelector "input[id=password]" true) ;;
  await (ElementType passwordInput password) ;;
  await (PageClick "input[id=submit]") ;;
  (* Upload *)
  signButton <- await (WaitForSelector ".intro-section button" true) ;;
  await (ElementClick signButton) ;;
  await (WaitForTimeout 5000) ;;
  browseButton <- await (WaitForSelector "label[for=file]" true) ;;
  chooser <- lift (settle (call respond WaitForFileChooser)) ;;
  clicked <- lift (settle (call respond (ElementClick browseButton))) ;;
  fileChooser <-
    match chooser, clicked with
    | Ok fc, Ok _ => lret fc
    | Throws e, _ => lift (throw e)
    | Ok _, Throws e => lift (throw e)
    end ;;
  await (FileChooserAccept fileChooser [zipPath]) ;;
  nextButton <- await (WaitForSelector ".md-modal:nth-child(1) button.primary" true) ;;
  await (ElementClick nextButton) ;;
  nextButton2 <- await (WaitForSelector ".md-modal:nth-child(2) button.primary" true) ;;
  await (ElementClick nextButton2) ;;
  (* Download *)
  downloadButton <- await (WaitForSelector "a.link-button" false) ;;
  downloadUrl <- await (ElementHref downloadButton) ;;
  print Log ("Downloading " ++ downloadUrl ++ "...") ;;
  let outputName := outputName zipPath in
  lift (try_catch
          (call respond (Download downloadUrl "." outputName))
          (fun _ => console Error "Download failed!")) ;;
  print Info ("Downloaded to " ++ dq ++ outputName ++ dq) ;;
  await BrowserClose ;;
  (* Move the download file to the output path if required *)
  match output with
  | Some o => if truthy output then rename renameSync outputName o else lret tt
  | None => lret tt
  end ;;
  lret tt.

(** *** [main] *)

Definition main : LM W unit :=
  '(username, password) <-
    lift (Legacy.getCredentials respond (env argv) (username argv) (password argv)) ;;
  zipPath <- zip ;;
  sign zipPath username password (output argv).

End Script.

Arguments zip {W} respond renameSync getTime argv _.
Arguments sign {W} respond renameSync zipPath username password output _.
Arguments main {W} respond renameSync getTime argv _.

End LegacyFlow.

(** A world for the earlier revision: the clock advances with the calls
    made, every rename works. *)
Definition legacy_clock (w : nat) : Z := 1587000000000 + Z.of_nat w.

Definition rename_works (oldPath newPath : string) (w : nat) : Result unit * nat :=
  (Ok tt, S w).

(** [my_extension --username a@b.com --password secret --output out/final.rbz] *)
Definition legacy_argv : LegacyFlow.Argv :=
  LegacyFlow.mkArgv "my_extension" false "a@b.com" "secret" (Some "out/final.rbz").

(** [no_such_folder --username a@b.com --password secret] *)
Definition legacy_argv_missing_folder : LegacyFlow.Argv :=
  LegacyFlow.mkArgv "no_such_folder" false "a@b.com" "secret" None.

(** The names [sign] gives to the elements it locates. *)
Definition labels : list string :=
  ["sign in button"; "e-mail input"; "password input"; "sign button";
   "browse button"; "next button 1"; "next button 2"; "download link"].

(** The lines [sign] and [search] write on their own: fixed text, and
    the line that names the destination computed from the archive path. *)
Definition own_lines (rbzPath : string) : list (Level * string) :=
  (Info, "Starting the signing process...")
  :: (Error, "Download failed!")
  :: (Info, "Downloaded to " ++ dq ++ outputPath rbzPath ++ dq)
  :: map (fun label => (Log, "Searching " ++ label ++ "...")) labels.

(** The lines that pass on a text the world has answered: the error of a
    wait that failed, and the address read from the download link. *)
Definition relayed_line {W} (respond : forall c : Call, W -> Result (ret_ty c) * W)
    (l : Level * string) : Prop :=
  (exists selector w0 w1 e,
      respond (WaitForSelector selector true) w0 = (Throws e, w1) /\
      In l (map (fun label => (Error, "cannot find " ++ label ++ ": " ++ e)) labels)) \/
  (exists h w0 w1 url,
      respond (ElementHref h) w0 = (Ok url, w1) /\
      l = (Log, "Downloading " ++ url ++ "...")).

Definition credential_free_line {W} respond (rbzPath : string) (l : Level * string) : Prop :=
  In l (own_lines rbzPath) \/ @relayed_line W respond l.

(** Two runs that differ only in the username and the password print the
    same lines. *)
Definition log_ignores_credentials {W} respond (argv : Argv.t) (rbzPath : string) (w : W)
    : Prop :=
  forall u1 p1 u2 p2,
    console_output (trace (sign respond argv rbzPath u1 p1 w)) =
    console_output (trace (sign respond argv rbzPath u2 p2 w)).

(** A portal that lets in one password only, driven by a driver whose
    error text quotes what was typed.  The state counts the calls and
    keeps the texts typed so far. *)
Definition refused (c : Call) (typed : list string) : option string :=
  match c, typed with
  | WaitForSelector _ _, [_; p] =>
      if String.eqb p "secret" then None else Some ("Error: login failed for " ++ p)
  | _, _ => None
  end.

Definition remember (c : Call) (typed : list string) : list string :=
  match c with
  | ElementType _ (Some t) => (typed ++ [t])%list
  | _ => typed
  end.

Definition picky_portal (c : Call) (w : nat * list string)
    : Result (ret_ty c) * (nat * list string) :=
  match refused c (snd w) with
  | Some e => (Throws e, (S (fst w), snd w))
  | None => (Ok (answer all_good c (fst w)), (S (fst w), remember c (snd w)))
  end.

(** * Properties *)

(** ** Proof automation

    Every function of the script is a straight line of calls; a proof
    about all worlds follows the line and splits on each answer. *)

Ltac unfold_script :=
  cbv beta iota zeta delta
    [main createOutputDir sign search zip getCredentials Legacy.getCredentials
     settle try_catch bind call console ret throw process_exit path_call
     outcome trace world app].

Ltac answer_step respond :=
  match goal with
  | |- context [respond ?c ?w] =>
      let v := fresh "v" in
      let e := fresh "e" in
      let w' := fresh "w" in
      destruct (respond c w) as [[v | e] w'] eqn:?;
      cbv beta iota zeta delta [app outcome trace world]
  end.

(** Names the run under study, so that the script is unfolded once. *)
Ltac name_run r :=
  match goal with
  | r := ?body |- _ =>
      let E := fresh "E" in
      assert (E : r = body) by reflexivity;
      clearbody r; revert E
  end.


Ltac split_step respond :=
  first
    [ answer_step respond
    | match goal with
      | |- context [match ?x with _ => _ end] =>
          lazymatch x with
          | context [match _ with _ => _ end] => fail
          | _ => destruct x eqn:?
          end;
          cbv beta iota zeta delta [app outcome trace world]
      end ].

(** ** The path functions on the paths of the examples *)

Example dirname_ex1 : Path.dirname "out/widget.rbz" = "out". Proof. reflexivity. Qed.
Example dirname_ex2 : Path.dirname "widget.rbz" = ".". Proof. reflexivity. Qed.
Example dirname_ex3 : Path.dirname "/a/b/c/" = "/a/b". Proof. reflexivity. Qed.
Example dirname_ex4 : Path.dirname "/a" = "/". Proof. reflexivity. Qed.
Example basename_ex1 : Path.basename "out/widget_signed.rbz" = "widget_signed.rbz".
Proof. reflexivity. Qed.
Example basename_ex2 : Path.basename "a/b/" = "b". Proof. reflexivity. Qed.
Example basename_suffix_ex1 :
  Path.basename_suffix "out/widget_not_signed.rbz" "_not_signed.rbz" = "widget".
Proof. reflexivity. Qed.
Example basename_suffix_ex2 :
  Path.basename_suffix "out/widget.rbz" "_not_signed.rbz" = "widget.rbz".
Proof. reflexivity. Qed.
Example basename_suffix_ex3 :
  Path.basename_suffix "_not_signed.rbz" "_not_signed.rbz" = "".
Proof. reflexivity. Qed.
Example basename_suffix_ex4 :
  Path.basename_suffix "a/_not_signed.rbz" "_not_signed.rbz" = "_not_signed.rbz".
Proof. reflexivity. Qed.
Example parse_name_ex1 : Path.parse_name "out/widget.rbz" = "widget". Proof. reflexivity. Qed.
Example parse_name_ex2 : Path.parse_name "/x/.bashrc" = ".bashrc". Proof. reflexivity. Qed.
Example parse_name_ex3 : Path.parse_name "a.b.c" = "a.b". Proof. reflexivity. Qed.
Example parse_name_ex4 : Path.parse_name ".." = "..". Proof. reflexivity. Qed.
Example join_ex1 : Path.join ["."; "widget"] = "widget". Proof. reflexivity. Qed.
Example join_ex2 : Path.join ["out"; "widget"] = "out/widget". Proof. reflexivity. Qed.
Example join_ex3 : Path.join ["a/b"; "../c"; ""] = "a/c". Proof. reflexivity. Qed.
Example join_ex4 : Path.join ["."; ""] = ".". Proof. reflexivity. Qed.
Example join_ex5 : Path.join ["/a/"; "../../b/"] = "/b/". Proof. reflexivity. Qed.
Example join_ex6 : Path.join [".."; "../x"] = "../../x". Proof. reflexivity. Qed.

(** ** Laws of sequencing *)

Section Laws.

Variable W : Type.

Lemma bind_run {A B} (m : M W A) (f : A -> M W B) (w : W) :
  bind m f w =
    match outcome (m w) with
    | Returned a =>
        let r := f a (world (m w)) in
        mkRun (outcome r) (world r) (trace (m w) ++ trace r)
    | Threw e => mkRun (Threw e) (world (m w)) (trace (m w))
    | Exited code => mkRun (Exited code) (world (m w)) (trace (m w))
    end.
Proof.
  unfold bind. destruct (m w) as [[a | e | code] w1 t1]; cbn; try reflexivity.
  destruct (f a w1); reflexivity.
Qed.

Lemma forallb_bind {A B} (P : Event -> bool) (m : M W A) (f : A -> M W B) (w : W) :
  forallb P (trace (m w)) = true ->
  (forall a, outcome (m w) = Returned a ->
             forallb P (trace (f a (world (m w)))) = true) ->
  forallb P (trace (bind m f w)) = true.
Proof.
  intros Hm Hf. rewrite bind_run.
  destruct (outcome (m w)) as [a | e | code] eqn:E; cbn; auto.
  rewrite forallb_app, Hm, (Hf a eq_refl). reflexivity.
Qed.

Lemma bind_stops_left {A B} (m : M W A) (f : A -> M W B) (w : W) :
  (forall a, outcome (m w) <> Returned a) ->
  forall b, outcome (bind m f w) <> Returned b.
Proof.
  intros Hm b. rewrite bind_run.
  destruct (outcome (m w)) as [a | e | code] eqn:E; cbn; try discriminate.
  destruct (Hm a eq_refl).
Qed.

Lemma bind_stops_right {A B} (m : M W A) (f : A -> M W B) (w : W) :
  (forall a w1 b, outcome (f a w1) <> Returned b) ->
  forall b, outcome (bind m f w) <> Returned b.
Proof.
  intros Hf b. rewrite bind_run.
  destruct (outcome (m w)) as [a | e | code] eqn:E; cbn; try discriminate.
  apply Hf.
Qed.

Lemma forallb_weaken (P Q : Event -> bool) (l : list Event) :
  (forall e, P e = true -> Q e = true) ->
  forallb P l = true -> forallb Q l = true.
Proof.
  intros HPQ. induction l as [| e l IH]; cbn; [reflexivity | ].
  intros H. apply andb_true_iff in H. destruct H as [He Hl].
  rewrite (HPQ e He), (IH Hl). reflexivity.
Qed.

Lemma not_flow_downloads_to (dir filename : string) (e : Event) :
  not_flow_event e = true -> downloads_to dir filename e = true.
Proof.
  destruct e as [l m | c ok]; [reflexivity | ].
  destruct c; cbn; intros H; try reflexivity; discriminate H.
Qed.

End Laws.

(** ** The locator *)

Section Locator.

Variable W : Type.
Variable respond : forall c : Call, W -> Result (ret_ty c) * W.

(** C6, as the script has it: when the element never appears, [search]
    has printed the line naming the step before it waited, waits once,
    prints a line with the label and the driver's error, and ends the
    process itself with exit code 1. *)
Theorem search_timeout_exits_in_place
    (targetName selector e : string) (w w' : W) :
  respond (WaitForSelector selector true) w = (Throws e, w') ->
  search respond targetName selector w =
    mkRun (Exited 1) w'
      [Console Log ("Searching " ++ targetName ++ "...");
       Called (WaitForSelector selector true) false;
       Console Error ("cannot find " ++ targetName ++ ": " ++ e)].
Proof.
  intros H. unfold_script. rewrite H. reflexivity.
Qed.

(** When the element appears, its handle is returned after the same
    first line. *)
Lemma search_found (targetName selector : string) (h : Handle) (w w' : W) :
  respond (WaitForSelector selector true) w = (Ok h, w') ->
  search respond targetName selector w =
    mkRun (Returned h) w'
      [Console Log ("Searching " ++ targetName ++ "...");
       Called (WaitForSelector selector true) true].
Proof.
  intros H. unfold_script. rewrite H. reflexivity.
Qed.

End Locator.

(** ** The submission flow *)

Section SignFlow.

Variable W : Type.
Variable respond : forall c : Call, W -> Result (ret_ty c) * W.
Variable argv : Argv.t.

(** C1, as the script has it: [sign] closes the session exactly once
    when it returns, whether or not the download worked; when a located
    element never appears the process exits with code 1 and the session
    is never closed; in no case is it closed twice. *)
Theorem sign_closes_session_only_when_it_returns
    (rbzPath : string) (username password : JsString) (w : W) :
  let r := sign respond argv rbzPath username password w in
  match outcome r with
  | Returned _ => closes (trace r) = 1
  | Exited code => code = 1%Z /\ closes (trace r) = 0
  | Threw _ => closes (trace r) <= 1
  end.
Proof.
  intros r. name_run r. unfold_script.
  repeat answer_step respond; intros ->; cbn; auto.
Qed.


(** C4: when the download fails, [sign] prints an error line, goes on to
    close the session once, does not exit the process, returns unless
    closing itself fails, and the run has gone through all six states to
    [Complete]. *)
Theorem failed_download_still_completes
    (rbzPath : string) (username password : JsString) (w : W) :
  let r := sign respond argv rbzPath username password w in
  existsb failed_download (trace r) = true ->
  In (Error, "Download failed!") (console_output (trace r)) /\
  closes (trace r) = 1 /\
  (forall code, outcome r <> Exited code) /\
  (existsb failed_close (trace r) = false -> outcome r = Returned tt) /\
  Submission.visited (trace r) = Some (Submission.order ++ [Submission.Complete])%list.
Proof.
  intros r. name_run r. unfold_script.
  repeat answer_step respond; intros -> H; cbn in H; try discriminate H;
    (split; [cbn; tauto | ]);
    (split; [reflexivity | ]);
    (split; [intros code; discriminate | ]);
    (split; [cbn; intros Hc; first [reflexivity | discriminate Hc] | ]);
    vm_compute; reflexivity.
Qed.

Ltac pick_line := first [ left; reflexivity | right; pick_line ].

Ltac line_ok :=
  first
    [ left; cbv beta iota delta [own_lines labels map In]; pick_line
    | right; left; do 4 eexists;
      split; [eassumption | cbv beta iota delta [labels map In]; pick_line]
    | right; right; do 4 eexists; split; [eassumption | reflexivity] ].

Lemma sign_lines_are_its_own_or_relayed
    (rbzPath : string) (username password : JsString) (w : W) :
  Forall (credential_free_line respond rbzPath)
         (console_output (trace (sign respond argv rbzPath username password w))).
Proof.
  unfold_script.
  repeat answer_step respond; cbn [console_output];
    repeat (apply Forall_cons; [unfold credential_free_line, relayed_line; line_ok | ]);
    apply Forall_nil.
Qed.

Lemma sign_blind_runs_agree
    (rbzPath : string) (u1 p1 u2 p2 : JsString) (w : W) :
  (forall h t t' w0, respond (ElementType h t) w0 = respond (ElementType h t') w0) ->
  console_output (trace (sign respond argv rbzPath u1 p1 w)) =
    console_output (trace (sign respond argv rbzPath u2 p2 w))
  /\ outcome (sign respond argv rbzPath u1 p1 w) =
     outcome (sign respond argv rbzPath u2 p2 w).
Proof.
  intros blind. unfold_script.
  repeat
    (try match goal with
         | |- context [respond (ElementType ?h u2) ?w0] => rewrite (blind h u2 u1 w0)
         | |- context [respond (ElementType ?h p2) ?w0] => rewrite (blind h p2 p1 w0)
         end;
     answer_step respond);
    split; reflexivity.
Qed.

(** C8, as the script has it: every line [sign] prints is one of its own
    lines, which depend on the archive path alone, or passes on a text
    answered by the world (the error of a failed wait, the address of the
    download link); the username and the password are in none of them
    unless the world puts them there.  In a world that answers the typing
    of a text without regard to the text, two runs that differ only in
    the username and the password print the same lines and end the same
    way. *)
Theorem sign_writes_no_credentials_of_its_own
    (rbzPath : string) (u1 p1 u2 p2 : JsString) (w : W) :
  Forall (credential_free_line respond rbzPath)
         (console_output (trace (sign respond argv rbzPath u1 p1 w)))
  /\ ((forall h t t' w0, respond (ElementType h t) w0 = respond (ElementType h t') w0) ->
      console_output (trace (sign respond argv rbzPath u1 p1 w)) =
        console_output (trace (sign respond argv rbzPath u2 p2 w))
      /\ outcome (sign respond argv rbzPath u1 p1 w) =
         outcome (sign respond argv rbzPath u2 p2 w)).
Proof.
  split; [apply sign_lines_are_its_own_or_relayed | apply sign_blind_runs_agree].
Qed.

End SignFlow.

(** ** What each function of the script calls and returns *)

Section Parts.

Variable W : Type.
Variable respond : forall c : Call, W -> Result (ret_ty c) * W.
Variable argv : Argv.t.

Lemma createOutputDir_quiet (output : JsString) (w : W) :
  forallb not_flow_event (trace (createOutputDir respond output w)) = true.
Proof.
  destruct output as [o |]; unfold_script; cbn [truthy Path.validateString];
    repeat split_step respond; reflexivity.
Qed.

Lemma getCredentials_quiet (w : W) :
  forallb not_flow_event (trace (getCredentials respond argv w)) = true.
Proof.
  unfold_script. repeat split_step respond; reflexivity.
Qed.

Lemma zip_quiet (output : JsString) (w : W) :
  forallb not_flow_event (trace (zip respond argv output w)) = true.
Proof.
  destruct output as [o |]; unfold_script; cbn [Path.validateString];
    repeat split_step respond; reflexivity.
Qed.

Lemma zip_returns (output : JsString) (w : W) (p : string) :
  outcome (zip respond argv output w) = Returned p ->
  exists o, output = Some o /\ p = archive_path o.
Proof.
  destruct output as [o |]; unfold_script; cbn [Path.validateString];
    repeat split_step respond; intros H; try discriminate H.
  exists o. split; [reflexivity | ]. injection H as <-. reflexivity.
Qed.

Lemma sign_downloads_to_outputPath
    (rbzPath : string) (username password : JsString) (w : W) :
  forallb (downloads_to (Path.dirname (outputPath rbzPath))
                        (Path.basename (outputPath rbzPath)))
          (trace (sign respond argv rbzPath username password w)) = true.
Proof.
  unfold_script.
  repeat answer_step respond; cbn [forallb downloads_to andb];
    rewrite ?String.eqb_refl; reflexivity.
Qed.

End Parts.

(** ** Credentials, archive and the whole run *)

Section MainFlow.

Variable W : Type.
Variable respond : forall c : Call, W -> Result (ret_ty c) * W.
Variable argv : Argv.t.

(** C2, as the script has it: with [--env] the dotenv file decides alone
    (its two values are returned whatever the flags say, or the process
    exits with code 1, and nobody is prompted); without [--env] a flag
    that is given is returned as it is and a field whose flag is empty is
    prompted for once, the answer being returned. *)
Theorem credentials_precedence (w : W) :
  let r := getCredentials respond argv w in
  match Argv.env argv with
  | Some env =>
      existsb is_prompt (trace r) = false /\
      match respond (DotenvConfig (Some (if (0 <? String.length env)%nat
                                         then env else ".env"))) w with
      | (Ok d, _) =>
          if usable d
          then outcome r = Returned (EW_USERNAME d, EW_PASSWORD d)
          else outcome r = Exited 1
      | (Throws e, _) => outcome r = Threw e
      end
  | None =>
      prompts_for "username" (trace r)
        = (if truthy (Some (Argv.username argv)) then 0 else 1) /\
      prompts_for "password" (trace r)
        <= (if truthy (Some (Argv.password argv)) then 0 else 1) /\
      forall u p,
        outcome r = Returned (u, p) ->
        prompts_for "password" (trace r)
          = (if truthy (Some (Argv.password argv)) then 0 else 1) /\
        (if truthy (Some (Argv.username argv))
         then u = Some (Argv.username argv)
         else exists w1,
             respond (Prompt "text" "username" "Extension Warehouse username") w
             = (Ok u, w1)) /\
        (if truthy (Some (Argv.password argv))
         then p = Some (Argv.password argv)
         else exists w1 w2,
             respond (Prompt "password" "password" "Extension Warehouse password") w1
             = (Ok p, w2))
  end.
Proof.
  intros r. name_run r. unfold_script.
  destruct (Argv.env argv) as [env |].
  - answer_step respond.
    + unfold usable. destruct (error v) as [err |]; cbn.
      * intros ->. split; reflexivity.
      * destruct (truthy (EW_USERNAME v)) eqn:Hu; cbn.
        -- destruct (truthy (EW_PASSWORD v)) eqn:Hp; cbn.
           ++ rewrite Hu, Hp. cbn. intros ->. split; reflexivity.
           ++ intros ->. split; reflexivity.
        -- intros ->. split; reflexivity.
    + intros ->. split; reflexivity.
  - cbv beta iota.
    destruct (truthy (Some (Argv.username argv))) eqn:Hu;
      destruct (truthy (Some (Argv.password argv))) eqn:Hp;
      cbn [negb]; cbv beta iota zeta delta [app];
      repeat answer_step respond; intros ->; cbn;
      (split; [reflexivity | split; [lia | ]]);
      intros u p H; try discriminate H; injection H as <- <-;
      (split; [reflexivity | split]); eauto.
Qed.

(** C7, what the script does: when the source path is missing or is not
    a directory, [zip] prints the error line and ends the process with
    exit code 0, before any call of the signing flow. *)
Theorem invalid_source_path_exits_with_zero (output : JsString) (w : W) :
  let r := zip respond argv output w in
  (exists w1, respond (ExistsSync (Argv.path argv)) w = (Ok false, w1)) \/
  (exists w1 w2,
      respond (ExistsSync (Argv.path argv)) w = (Ok true, w1) /\
      respond (LstatIsDirectory (Argv.path argv)) w1 = (Ok false, w2)) ->
  outcome r = Exited 0 /\
  console_output (trace r)
    = [(Error, "The target path " ++ dq ++ Argv.path argv ++ dq ++ " is not a directory")] /\
  forallb not_flow_event (trace r) = true.
Proof.
  intros r. name_run r. unfold_script.
  intros E [(w1 & H1) | (w1 & w2 & H1 & H2)]; revert E.
  - rewrite H1. cbn. intros ->. repeat split.
  - rewrite H1. cbn. rewrite H2. cbn. intros ->. repeat split.
Qed.

(** C9, as the script has it: with [--env], when the dotenv file cannot
    be loaded or lacks a non-empty [EW_USERNAME] or [EW_PASSWORD], the
    process exits with code 1 right after loading it: nobody is
    prompted, nothing is archived and the signing flow is not entered. *)
Theorem unusable_env_file_stops_before_signing
    (env : string) (d : DotenvOutput) (w w1 w2 : W) (t : list Event) :
  Argv.env argv = Some env ->
  createOutputDir respond (Argv.output argv) w = mkRun (Returned tt) w1 t ->
  respond (DotenvConfig (Some (if (0 <? String.length env)%nat then env else ".env"))) w1
    = (Ok d, w2) ->
  usable d = false ->
  let r := main respond argv w in
  outcome r = Exited 1 /\
  (exists msg,
      trace r = (t ++ [Called (DotenvConfig (Some (if (0 <? String.length env)%nat
                                                   then env else ".env"))) true;
                       Console Error msg])%list) /\
  forallb not_flow_event (trace r) = true.
Proof.
  intros Henv Hdir Hd Hbad r.
  assert (G : exists msg,
             getCredentials respond argv w1
             = mkRun (Exited 1) w2
                 [Called (DotenvConfig (Some (if (0 <? String.length env)%nat
                                              then env else ".env"))) true;
                  Console Error msg]).
  { unfold_script. rewrite Henv. cbv beta iota. rewrite Hd. cbv beta iota.
    unfold usable in Hbad.
    destruct (error d) as [err |]; [eexists; reflexivity | ].
    destruct (truthy (EW_USERNAME d)); cbn; [ | eexists; reflexivity].
    destruct (truthy (EW_PASSWORD d)); cbn; [discriminate Hbad | eexists; reflexivity]. }
  destruct G as (msg & G).
  assert (E : r = mkRun (Exited 1) w2
                    (t ++ [Called (DotenvConfig (Some (if (0 <? String.length env)%nat
                                                       then env else ".env"))) true;
                           Console Error msg])%list).
  { subst r. unfold main. rewrite bind_run, Hdir. cbn [outcome world trace].
    rewrite bind_run, G. reflexivity. }
  rewrite E. cbn [outcome trace]. split; [reflexivity | ]. split; [eauto | ].
  rewrite forallb_app.
  pose proof (createOutputDir_quiet W respond (Argv.output argv) w) as Q.
  rewrite Hdir in Q. cbn [trace] in Q. rewrite Q. reflexivity.
Qed.

(** C10: without an output path [zip] never returns an archive path:
    once the folder has passed the check and the archiver is set up, the
    path derivation throws the [TypeError] of an undefined argument.
    Hence [main] does not return either and makes no call of the signing
    flow. *)
Theorem zip_needs_an_output_path (w : W) :
  Argv.output argv = None ->
  (forall p, outcome (zip respond argv (Argv.output argv) w) <> Returned p) /\
  (existsb handler_registered (trace (zip respond argv (Argv.output argv) w)) = true ->
   outcome (zip respond argv (Argv.output argv) w) = Threw Path.invalid_arg_type) /\
  outcome (main respond argv w) <> Returned tt /\
  forallb not_flow_event (trace (main respond argv w)) = true.
Proof.
  intros Ho.
  assert (Z : forall w0 p, outcome (zip respond argv None w0) <> Returned p).
  { intros w0 p H. apply zip_returns in H. destruct H as (o & H & _). discriminate H. }
  rewrite Ho. split; [apply Z | ]. split.
  { unfold_script. cbn [Path.validateString].
    repeat split_step respond; cbn; intros H; try discriminate H; reflexivity. }
  split.
  - unfold main. rewrite Ho.
    apply bind_stops_right. intros _ w1.
    apply bind_stops_right. intros [u p] w2.
    apply bind_stops_left. apply Z.
  - unfold main. rewrite Ho.
    apply forallb_bind; [apply createOutputDir_quiet | intros _ _].
    apply forallb_bind; [apply getCredentials_quiet | intros [u p] _].
    apply forallb_bind; [apply zip_quiet | intros rbz Hz].
    destruct (Z _ _ Hz).
Qed.

End MainFlow.

(** ** The earlier revision *)

Section LegacyCredentials.

Variable W : Type.
Variable respond : forall c : Call, W -> Result (ret_ty c) * W.

(** The first revision resolves the credentials the same way: with
    [--env] the dotenv file decides alone, without it a flag is used as
    given and an empty one is prompted for. *)
Lemma legacy_credentials_precedence (env : bool) (username password : string) (w : W) :
  let r := Legacy.getCredentials respond env username password w in
  if env then
    existsb is_prompt (trace r) = false /\
    match respond (DotenvConfig None) w with
    | (Ok d, _) =>
        if usable d
        then outcome r = Returned (EW_USERNAME d, EW_PASSWORD d)
        else outcome r = Exited 1
    | (Throws e, _) => outcome r = Threw e
    end
  else
    prompts_for "username" (trace r) = (if truthy (Some username) then 0 else 1) /\
    forall u p,
      outcome r = Returned (u, p) ->
      prompts_for "password" (trace r) = (if truthy (Some password) then 0 else 1) /\
      (truthy (Some username) = true -> u = Some username) /\
      (truthy (Some password) = true -> p = Some password).
Proof.
  intros r. name_run r. unfold_script.
  destruct env.
  - answer_step respond.
    + unfold usable. destruct (error v) as [err |]; cbn.
      * intros ->. split; reflexivity.
      * destruct (truthy (EW_USERNAME v)) eqn:Hu; cbn.
        -- destruct (truthy (EW_PASSWORD v)) eqn:Hp; cbn.
           ++ rewrite Hu, Hp. cbn. intros ->. split; reflexivity.
           ++ intros ->. split; reflexivity.
        -- intros ->. split; reflexivity.
    + intros ->. split; reflexivity.
  - cbv beta iota.
    destruct (truthy (Some username)) eqn:Hu;
      destruct (truthy (Some password)) eqn:Hp;
      cbn [negb]; cbv beta iota zeta delta [app];
      repeat answer_step respond; intros ->; cbn;
      (split; [reflexivity | ]);
      intros u p H; try discriminate H; injection H as <- <-;
      (split; [reflexivity | split]); intros D; first [reflexivity | discriminate D].
Qed.

End LegacyCredentials.

(** ** Concrete runs *)

(** The output name is derived again from a name that is already the
    signed one: the derivation is a function, not a projection. *)
Example outputPath_of_signed_name :
  outputPath "widget_signed.rbz" = "widget_signed.rbz_signed.rbz"
  /\ outputPath "out/widget_not_signed.rbz" = "out/widget_signed.rbz".
Proof. split; reflexivity. Qed.

(** The whole flow with flags and an output path. *)
Example main_all_good :
  let r := main (scenario all_good) argv_flags 0 in
  outcome r = Returned tt /\
  closes (trace r) = 1 /\
  existsb is_prompt (trace r) = false /\
  In (Called (Download (href all_good) "out" "widget_signed.rbz") true) (trace r).
Proof.
  cbv zeta. repeat split. vm_compute. tauto.
Qed.

(** The example of the design, flags without [--output]: nobody is
    prompted, and the run ends in [zip] with the [TypeError]. *)
Example main_flags_without_output :
  let r := main (scenario all_good) argv_no_output 0 in
  outcome r = Threw Path.invalid_arg_type /\
  existsb is_prompt (trace r) = false /\
  forallb not_flow_event (trace r) = true.
Proof.
  cbv zeta. repeat split.
Qed.

(** The folder is missing: exit code 0, nothing of the flow was called. *)
Example main_missing_folder :
  let r := main (scenario folder_missing) argv_missing_folder 0 in
  outcome r = Exited 0 /\
  console_output (trace r)
    = [(Error, "The target path " ++ dq ++ "no_such_folder" ++ dq ++ " is not a directory")] /\
  forallb not_flow_event (trace r) = true.
Proof.
  cbv zeta. repeat split.
Qed.

(** C1, counterexample: the download link never shows up; the process
    exits with code 1 and the session was not closed. *)
Lemma session_left_open_on_timeout :
  outcome (sign (scenario link_never_shows) argv_flags "out/widget_not_signed.rbz"
             (Some "a@b.com") (Some "secret") 0) = Exited 1
  /\ closes (trace (sign (scenario link_never_shows) argv_flags "out/widget_not_signed.rbz"
                      (Some "a@b.com") (Some "secret") 0)) = 0
  /\ ~ closed_exactly_once
        (sign (scenario link_never_shows) argv_flags "out/widget_not_signed.rbz"
           (Some "a@b.com") (Some "secret") 0).
Proof.
  split; [reflexivity | ]. split; [reflexivity | ].
  unfold closed_exactly_once. vm_compute. discriminate.
Qed.

(** C2, counterexample: with [--env] and both flags given, the values of
    the dotenv file are returned, not the flags. *)
Lemma env_file_overrides_flags :
  outcome (getCredentials (scenario all_good) argv_flags_env 0)
    = Returned (Some "env@user.com", Some "env-secret")
  /\ ~ flags_take_priority (scenario all_good) argv_flags_env 0.
Proof.
  split; [reflexivity | ].
  intros H. destruct (H _ _ eq_refl) as [Hu _].
  specialize (Hu eq_refl). discriminate Hu.
Qed.

(** C4, witness: the download breaks. *)
Lemma failed_download_still_completes_witness :
  existsb failed_download
    (trace (sign (scenario download_fails) argv_flags "out/widget_not_signed.rbz"
              (Some "a@b.com") (Some "secret") 0)) = true
  /\ outcome (sign (scenario download_fails) argv_flags "out/widget_not_signed.rbz"
                (Some "a@b.com") (Some "secret") 0) = Returned tt
  /\ closes (trace (sign (scenario download_fails) argv_flags "out/widget_not_signed.rbz"
                      (Some "a@b.com") (Some "secret") 0)) = 1.
Proof.
  split; [reflexivity | ].
  pose proof (failed_download_still_completes nat (scenario download_fails)
                argv_flags "out/widget_not_signed.rbz" (Some "a@b.com") (Some "secret") 0
                eq_refl) as (_ & Hclose & _ & Hret & _).
  split; [apply Hret; reflexivity | exact Hclose].
Defined.

(** C6, counterexample: the sign-in button never shows up; [search] ends
    the process, no exception reaches its caller, and a handler the
    caller wraps around it is not run. *)
Lemma timeout_does_not_reach_the_caller :
  ~ propagated_to_caller
      (search (scenario button_never_shows) "sign in button" ".intro-section button" 0)
  /\ outcome (try_catch
                (search (scenario button_never_shows) "sign in button" ".intro-section button")
                (fun _ => ret 0) 0) = Exited 1.
Proof.
  split; [ | reflexivity].
  intros [e H]. vm_compute in H. discriminate H.
Qed.

(** C6, witness. *)
Lemma search_timeout_exits_in_place_witness :
  outcome (search (scenario button_never_shows) "sign in button" ".intro-section button" 0)
  = Exited 1.
Proof.
  rewrite (search_timeout_exits_in_place nat (scenario button_never_shows)
             "sign in button" ".intro-section button"
             "TimeoutError: waiting for selector .intro-section button failed: timeout 60000ms exceeded"
             0 1 eq_refl).
  reflexivity.
Defined.

(** C7, witness: the folder is missing. *)
Lemma invalid_source_path_exits_with_zero_witness :
  scenario folder_missing (ExistsSync (Argv.path argv_missing_folder)) 1 = (Ok false, 2) /\
  outcome (zip (scenario folder_missing) argv_missing_folder (Some "out/widget.rbz") 1)
    = Exited 0.
Proof.
  split; [reflexivity | ].
  apply (invalid_source_path_exits_with_zero nat (scenario folder_missing)
           argv_missing_folder (Some "out/widget.rbz") 1).
  left. exists 2. reflexivity.
Defined.

(** C8, counterexample: the portal lets in [secret] only; typed
    [hunter2] instead, the run prints one more line, and that line
    carries the password. *)
Lemma rejected_password_reaches_the_log :
  ~ log_ignores_credentials picky_portal argv_flags "out/widget_not_signed.rbz" (0, [])
  /\ outcome (sign picky_portal argv_flags "out/widget_not_signed.rbz"
                (Some "a@b.com") (Some "secret") (0, [])) = Returned tt
  /\ outcome (sign picky_portal argv_flags "out/widget_not_signed.rbz"
                (Some "a@b.com") (Some "hunter2") (0, [])) = Exited 1
  /\ In (Error, "cannot find sign button: Error: login failed for hunter2")
        (console_output
           (trace (sign picky_portal argv_flags "out/widget_not_signed.rbz"
                     (Some "a@b.com") (Some "hunter2") (0, [])))).
Proof.
  split; [ | split; [reflexivity | split; [reflexivity | vm_compute; tauto]]].
  intros H.
  specialize (H (Some "a@b.com") (Some "secret") (Some "a@b.com") (Some "hunter2")).
  vm_compute in H. discriminate H.
Qed.

(** C8, witness: the scenario worlds do not look at the text typed. *)
Lemma sign_writes_no_credentials_of_its_own_witness :
  console_output (trace (sign (scenario all_good) argv_flags "out/widget_not_signed.rbz"
                           (Some "a@b.com") (Some "secret") 0))
  = console_output (trace (sign (scenario all_good) argv_flags "out/widget_not_signed.rbz"
                             (Some "someone@else.org") None 0)).
Proof.
  apply (sign_writes_no_credentials_of_its_own nat (scenario all_good) argv_flags).
  intros h t t' w0. reflexivity.
Defined.

(** C9, counterexample: no flags, no [--env], and the operator presses
    Enter at both prompts; the empty credentials go into the signing
    flow, which runs to its end. *)
Lemma empty_answers_are_signed_with :
  outcome (main (scenario empty_answers) argv_bare 0) = Returned tt /\
  In (Called (ElementType 18 (Some "")) true)
     (trace (main (scenario empty_answers) argv_bare 0)) /\
  ~ stops_without_credentials (scenario empty_answers) argv_bare 0.
Proof.
  split; [reflexivity | ]. split; [vm_compute; tauto | ].
  intros H. specialize (H (Some "") (Some "") eq_refl eq_refl).
  vm_compute in H. discriminate H.
Qed.

(** C9, witness: [--env] with a file that has no [EW_PASSWORD]. *)
Lemma unusable_env_file_stops_before_signing_witness :
  usable (dotenv no_password_in_env) = false /\
  outcome (main (scenario no_password_in_env) argv_flags_env 0) = Exited 1.
Proof.
  split; [reflexivity | ].
  apply (unusable_env_file_stops_before_signing nat (scenario no_password_in_env)
           argv_flags_env "" (dotenv no_password_in_env) 0 1 2
           [Called (ExistsSync "out") true]); reflexivity.
Defined.

(** C10, witness: flags without [--output]. *)
Lemma zip_needs_an_output_path_witness :
  Argv.output argv_no_output = None /\
  outcome (main (scenario all_good) argv_no_output 0) <> Returned tt.
Proof.
  split; [reflexivity | ].
  apply (zip_needs_an_output_path nat (scenario all_good) argv_no_output 0 eq_refl).
Defined.

(** * Further properties of the script *)

Lemma ends_with_here {A} (s : list A) : ends_with s s.
Proof. exists []. reflexivity. Qed.

Lemma ends_with_later {A} (s l : list A) (x : A) :
  ends_with s l -> ends_with s (x :: l).
Proof. intros [pre ->]. exists (x :: pre). reflexivity. Qed.

Ltac find_suffix := repeat first [ apply ends_with_here | apply ends_with_later ].

(** ** [sign] *)

Section SignDetails.

Variable W : Type.
Variable respond : forall c : Call, W -> Result (ret_ty c) * W.
Variable argv : Argv.t.

(** X1: the only thing [sign] ever hands to a file chooser is the archive
    it was given, once; a run that returns has done so. *)
Theorem sign_uploads_the_archive
    (rbzPath : string) (username password : JsString) (w : W) :
  let r := sign respond argv rbzPath username password w in
  (uploads (trace r) = [] \/ uploads (trace r) = [[rbzPath]]) /\
  (forall a, outcome r = Returned a -> uploads (trace r) = [[rbzPath]]).
Proof.
  intros r. name_run r. unfold_script.
  repeat answer_step respond; intros ->; cbn;
    (split; [auto | intros a H; first [reflexivity | discriminate H]]).
Qed.

(** X2: [sign] types the username first and the password second, each at
    most once, and types nothing else; a run that returns has typed
    both. *)
Theorem sign_types_username_then_password
    (rbzPath : string) (username password : JsString) (w : W) :
  let r := sign respond argv rbzPath username password w in
  (typed_texts (trace r) = [] \/
   typed_texts (trace r) = [username] \/
   typed_texts (trace r) = [username; password]) /\
  (forall a, outcome r = Returned a -> typed_texts (trace r) = [username; password]).
Proof.
  intros r. name_run r. unfold_script.
  repeat answer_step respond; intros ->; cbn;
    (split; [auto | intros a H; first [reflexivity | discriminate H]]).
Qed.

(** X3: [sign] ends the process only through [search]: the exit code is
    1 and the run ends with the three events of a failed search, the line
    naming the step, the failed wait, and the error line with the same
    label. *)
Theorem sign_exits_only_from_search
    (rbzPath : string) (username password : JsString) (w : W) (code : Z) :
  let r := sign respond argv rbzPath username password w in
  outcome r = Exited code ->
  code = 1%Z /\
  exists label selector e,
    ends_with [Console Log ("Searching " ++ label ++ "...");
               Called (WaitForSelector selector true) false;
               Console Error ("cannot find " ++ label ++ ": " ++ e)]
              (trace r).
Proof.
  intros r. name_run r. unfold_script.
  repeat answer_step respond; intros -> H; cbn [outcome trace] in *;
    try discriminate H;
    (split; [congruence | ]); do 3 eexists; find_suffix.
Qed.

(** X4: the navigation comes before the default timeout is set, so
    [--timeout] does not bound it; every wait for an element comes after
    the default timeout has been set, and it is set to [argv.timeout]. *)
Theorem sign_sets_timeout_after_navigation
    (rbzPath : string) (username password : JsString) (w : W) :
  timeout_discipline (Argv.timeout argv) false
    (trace (sign respond argv rbzPath username password w)) = true.
Proof.
  unfold_script.
  repeat answer_step respond;
    cbn [timeout_discipline negb andb]; rewrite ?Z.eqb_refl; reflexivity.
Qed.

(** X5: once the download has been attempted, whether it worked or not,
    [sign] prints the line [Downloaded to "..."] with the derived output
    path and then closes the session, and nothing follows. *)
Theorem sign_announces_download_regardless
    (rbzPath : string) (username password : JsString) (w : W) :
  let r := sign respond argv rbzPath username password w in
  existsb is_download_event (trace r) = true ->
  exists ok,
    ends_with [Console Info ("Downloaded to " ++ dq ++ outputPath rbzPath ++ dq);
               Called BrowserClose ok]
              (trace r).
Proof.
  intros r. name_run r. unfold_script.
  repeat answer_step respond; intros -> H; cbn [outcome trace] in *;
    cbn in H; try discriminate H; eexists; find_suffix.
Qed.

(** X6: an error thrown by a call that is not a wait for an element
    (launch, navigation, click, typing, file chooser, reading the link,
    closing) is not caught: when [sign] ends with an exception, no
    [cannot find] line was printed (the only error line there can be is
    that of a failed download), and the session was closed only if the
    exception is that of closing. *)
Theorem sign_rejection_is_silent
    (rbzPath : string) (username password : JsString) (w : W) (e : string) :
  let r := sign respond argv rbzPath username password w in
  outcome r = Threw e ->
  (error_lines (trace r) = [] \/ error_lines (trace r) = ["Download failed!"]) /\
  closes (trace r) = (if existsb failed_close (trace r) then 1 else 0).
Proof.
  intros r. name_run r. unfold_script.
  repeat answer_step respond; intros -> H; cbn [outcome trace] in *;
    try discriminate H; (split; [cbn; auto | reflexivity]).
Qed.

End SignDetails.

(** ** [getCredentials] and [zip] *)

Ltac know_booleans :=
  repeat match goal with
         | H : negb ?v = _ |- _ => destruct v; try discriminate H; clear H
         end.

Section PartsDetails.

Variable W : Type.
Variable respond : forall c : Call, W -> Result (ret_ty c) * W.
Variable argv : Argv.t.

(** X7: the dotenv file is loaded only when [--env] is given, then
    exactly once and before anything else, from the given path or from
    [.env] when the option has no value. *)
Theorem getCredentials_loads_env_file_on_request_only (w : W) :
  dotenv_loads (trace (getCredentials respond argv w))
  = match Argv.env argv with
    | Some env => [Some (env_path env)]
    | None => []
    end.
Proof.
  unfold_script. unfold env_path.
  repeat split_step respond; reflexivity.
Qed.

(** X8: [getCredentials] prints only when it gives up: it ends the
    process only under [--env], with exit code 1 and one error line as
    its whole output; when it returns or throws it has printed nothing. *)
Theorem getCredentials_prints_only_to_give_up (w : W) :
  let r := getCredentials respond argv w in
  match outcome r with
  | Exited code =>
      code = 1%Z /\ Argv.env argv <> None /\
      exists msg, console_output (trace r) = [(Error, msg)]
  | _ => console_output (trace r) = []
  end.
Proof.
  intros r. subst r. unfold_script.
  repeat split_step respond; cbn [console_output];
    try reflexivity; (split; [reflexivity | split; [discriminate | eexists; reflexivity]]).
Qed.

(** X9: when [zip] returns a path, it is the path derived from the output
    option; the folder passed both checks, the write stream was opened on
    that very path, the source folder was added and the archive
    finalized, in this order, and the line printed names the same
    path. *)
Theorem zip_returns_the_path_it_wrote (output : JsString) (w : W) (p : string) :
  let r := zip respond argv output w in
  outcome r = Returned p ->
  exists o,
    output = Some o /\ p = archive_path o /\
    trace r =
      [Called (ExistsSync (Argv.path argv)) true;
       Called (LstatIsDirectory (Argv.path argv)) true;
       Called (Archiver "zip") true;
       Called (ArchiveOn "warning") true;
       Called (ArchiveOn "error") true;
       Called (CreateWriteStream p) true;
       Called ArchivePipe true;
       Called (ArchiveDirectory (Argv.path argv)) true;
       Called ArchiveFinalize true;
       Console Info ("The extension has been archived in " ++ dq ++ p ++ dq)].
Proof.
  destruct output as [o |]; intros r; subst r;
    unfold_script; cbn [Path.validateString];
    repeat split_step respond; intros H; try discriminate H.
  injection H as <-. exists o. repeat split.
Qed.

(** X10: [zip] opens a write stream only for a source path that the disk
    reported as existing and as a directory, and only when an output path
    was given; [lstatSync] is not called on a path reported missing. *)
Theorem zip_writes_only_for_a_directory (output : JsString) (w : W) :
  let r := zip respond argv output w in
  written (trace r) <> [] ->
  output <> None /\
  exists w1 w2,
    respond (ExistsSync (Argv.path argv)) w = (Ok true, w1) /\
    respond (LstatIsDirectory (Argv.path argv)) w1 = (Ok true, w2).
Proof.
  destruct output as [o |]; intros r; subst r;
    unfold_script; cbn [Path.validateString];
    repeat split_step respond; cbn [written]; intros H;
    try (destruct (H eq_refl)); know_booleans;
    (split; [discriminate | eauto]).
Qed.

End PartsDetails.

(** ** [main] *)

Section Projections.

Lemma uploads_app (a b : list Event) : uploads (a ++ b) = (uploads a ++ uploads b)%list.
Proof.
  induction a as [| [l m | c ok] a IH]; cbn; [reflexivity | exact IH | ].
  destruct c; cbn; rewrite IH; reflexivity.
Qed.

Lemma written_app (a b : list Event) : written (a ++ b) = (written a ++ written b)%list.
Proof.
  induction a as [| [l m | c ok] a IH]; cbn; [reflexivity | exact IH | ].
  destruct c; cbn; rewrite IH; reflexivity.
Qed.

Lemma console_output_app (a b : list Event) :
  console_output (a ++ b) = (console_output a ++ console_output b)%list.
Proof.
  induction a as [| [l m | c ok] a IH]; cbn; [reflexivity | | exact IH].
  rewrite IH. reflexivity.
Qed.

Lemma prompts_for_app (field : string) (a b : list Event) :
  prompts_for field (a ++ b) = prompts_for field a + prompts_for field b.
Proof.
  unfold prompts_for. rewrite filter_app, length_app. reflexivity.
Qed.

End Projections.

Section MainDetails.

Variable W : Type.
Variable respond : forall c : Call, W -> Result (ret_ty c) * W.
Variable argv : Argv.t.

Lemma createOutputDir_footprint (output : JsString) (w : W) :
  let r := createOutputDir respond output w in
  console_output (trace r) = [] /\
  uploads (trace r) = [] /\
  written (trace r) = [] /\
  (forall field, prompts_for field (trace r) = 0) /\
  (forall code, outcome r <> Exited code).
Proof.
  intros r. subst r.
  destruct output as [o |]; unfold_script; cbn [truthy Path.validateString];
    repeat split_step respond; repeat split; intros; discriminate.
Qed.

Lemma getCredentials_footprint (w : W) :
  let r := getCredentials respond argv w in
  uploads (trace r) = [] /\
  written (trace r) = [] /\
  (forall code, outcome r = Exited code -> code = 1%Z) /\
  (forall a, outcome r = Returned a ->
             console_output (trace r) = [] /\
             prompts_for "username" (trace r) = expected_prompts argv (Argv.username argv) /\
             prompts_for "password" (trace r) = expected_prompts argv (Argv.password argv)).
Proof.
  intros r. subst r. unfold expected_prompts. unfold_script.
  destruct (Argv.env argv) as [env |].
  - repeat split_step respond; repeat split; intros; try congruence; discriminate.
  - cbv beta iota.
    destruct (truthy (Some (Argv.username argv)));
      destruct (truthy (Some (Argv.password argv)));
      cbn [negb]; cbv beta iota zeta delta [app];
      repeat answer_step respond; repeat split; intros; try congruence; discriminate.
Qed.

Lemma zip_footprint (output : JsString) (w : W) :
  let r := zip respond argv output w in
  uploads (trace r) = [] /\
  (forall field, prompts_for field (trace r) = 0) /\
  (written (trace r) = [] \/
   exists o, output = Some o /\ written (trace r) = [archive_path o]) /\
  (forall code, outcome r = Exited code ->
                code = 0%Z /\
                console_output (trace r) = [(Error, not_a_directory (Argv.path argv))]) /\
  (forall p, outcome r = Returned p -> written (trace r) = [p]).
Proof.
  intros r. subst r. unfold not_a_directory.
  destruct output as [o |]; unfold_script; cbn [Path.validateString];
    repeat split_step respond; cbn [uploads written console_output];
    (split; [reflexivity | ]);
    (split; [reflexivity | ]);
    (split; [first [left; reflexivity | right; exists o; split; reflexivity] | ]);
    (split; intros x H; try discriminate H; injection H as <-; auto).
Qed.

Lemma sign_footprint (rbzPath : string) (username password : JsString) (w : W) :
  let r := sign respond argv rbzPath username password w in
  written (trace r) = [] /\
  (forall field, prompts_for field (trace r) = 0) /\
  (uploads (trace r) = [] \/ uploads (trace r) = [[rbzPath]]) /\
  (forall code, outcome r = Exited code -> code = 1%Z) /\
  (forall a, outcome r = Returned a -> uploads (trace r) = [[rbzPath]]).
Proof.
  intros r. name_run r. unfold_script.
  repeat answer_step respond; intros ->; cbn;
    (split; [reflexivity | ]);
    (split; [reflexivity | ]);
    (split; [auto | ]);
    (split; intros x H; try discriminate H; first [reflexivity | congruence]).
Qed.

(** Follows [main] through its four parts. *)
Ltac enter_main :=
  unfold main; rewrite bind_run;
  pose proof (createOutputDir_footprint (Argv.output argv)) as Fd;
  match goal with
  | |- context [createOutputDir respond ?o ?w] =>
      specialize (Fd w); cbv zeta in Fd;
      destruct Fd as (Fd_console & Fd_uploads & Fd_written & Fd_prompts & Fd_exit);
      destruct (outcome (createOutputDir respond o w)) as [[] | e1 | c1] eqn:E1;
      cbn [outcome trace world]; cbv zeta
  end.

Ltac enter_getCredentials :=
  rewrite bind_run;
  match goal with
  | |- context [getCredentials respond argv ?w] =>
      pose proof (getCredentials_footprint w) as Fg; cbv zeta in Fg;
      destruct Fg as (Fg_uploads & Fg_written & Fg_exit & Fg_returned);
      destruct (outcome (getCredentials respond argv w)) as [[u p] | e2 | c2] eqn:E2;
      cbn [outcome trace world]; cbv zeta
  end.

Ltac enter_zip :=
  rewrite bind_run;
  match goal with
  | |- context [zip respond argv ?o ?w] =>
      pose proof (zip_footprint o w) as Fz; cbv zeta in Fz;
      destruct Fz as (Fz_uploads & Fz_prompts & Fz_written & Fz_exit & Fz_returned);
      destruct (outcome (zip respond argv o w)) as [rbz | e3 | c3] eqn:E3;
      cbn [outcome trace world]; cbv zeta
  end.

Ltac enter_sign :=
  match goal with
  | |- context [sign respond argv ?rbz ?u ?p ?w] =>
      pose proof (sign_footprint rbz u p w) as Fs; cbv zeta in Fs;
      destruct Fs as (Fs_written & Fs_prompts & Fs_uploads & Fs_exit & Fs_returned)
  end.

(** X11: whatever [main] uploads is the archive it has just written: the
    only file list ever handed to the file chooser is the archive path
    derived from the output option, and a write stream was opened on that
    path, and on no other, before. *)
Theorem main_uploads_the_archive_it_wrote (o : string) (w : W) :
  Argv.output argv = Some o ->
  let r := main respond argv w in
  (uploads (trace r) = [] \/
   (uploads (trace r) = [[archive_path o]] /\ written (trace r) = [archive_path o])) /\
  (outcome r = Returned tt ->
   uploads (trace r) = [[archive_path o]] /\ written (trace r) = [archive_path o]).
Proof.
  intros Ho r. subst r. enter_main.
  2, 3: rewrite Fd_uploads; split; [left; reflexivity | discriminate].
  enter_getCredentials.
  2, 3: rewrite uploads_app, Fd_uploads, Fg_uploads; split; [left; reflexivity | discriminate].
  enter_zip.
  2, 3: rewrite !uploads_app, Fd_uploads, Fg_uploads, Fz_uploads;
        split; [left; reflexivity | discriminate].
  enter_sign.
  rewrite !uploads_app, !written_app.
  rewrite Fd_uploads, Fg_uploads, Fz_uploads, Fd_written, Fg_written, Fs_written.
  rewrite (Fz_returned rbz eq_refl). cbn [app].
  destruct Fz_written as [Hw | (o' & Ho' & Hw)];
    rewrite (Fz_returned rbz eq_refl) in Hw; [discriminate Hw | ].
  rewrite Ho in Ho'. injection Ho' as <-. injection Hw as ->.
  split.
  - destruct Fs_uploads as [-> | ->]; [left | right]; auto.
  - intros H. rewrite (Fs_returned tt H). auto.
Qed.

(** X12: [main] ends the process with code 0 or 1 only; with code 0 the
    one line it has printed is the error about the source folder. *)
Theorem main_exit_codes (w : W) (code : Z) :
  let r := main respond argv w in
  outcome r = Exited code ->
  code = 1%Z \/
  (code = 0%Z /\
   console_output (trace r) = [(Error, not_a_directory (Argv.path argv))]).
Proof.
  intros r. subst r. enter_main; intros H; try discriminate H.
  2: { destruct (Fd_exit _ eq_refl). }
  revert H. enter_getCredentials; intros H; try discriminate H.
  2: { left. injection H as <-. apply Fg_exit. reflexivity. }
  revert H. enter_zip; intros H; try discriminate H.
  2: { right. injection H as <-. destruct (Fz_exit _ eq_refl) as [-> Hc].
       split; [reflexivity | ].
       rewrite !console_output_app, Fd_console, Hc.
       destruct (Fg_returned _ eq_refl) as (-> & _). reflexivity. }
  enter_sign. left. apply Fs_exit. exact H.
Qed.

(** X13: the source folder is checked only after the credentials have
    been resolved: a run that ends with the folder error (exit code 0)
    has already prompted once for each field that no flag supplied when
    [--env] was not given. *)
Theorem main_asks_before_checking_the_folder (w : W) :
  let r := main respond argv w in
  outcome r = Exited 0 ->
  prompts_for "username" (trace r) = expected_prompts argv (Argv.username argv) /\
  prompts_for "password" (trace r) = expected_prompts argv (Argv.password argv).
Proof.
  intros r. subst r. enter_main; intros H; try discriminate H.
  2: { destruct (Fd_exit _ eq_refl). }
  revert H. enter_getCredentials; intros H; try discriminate H.
  2: { injection H as H. pose proof (Fg_exit _ eq_refl) as H1. lia. }
  revert H. enter_zip; intros H; try discriminate H.
  2: { destruct (Fg_returned _ eq_refl) as (_ & Hu & Hp).
       rewrite !prompts_for_app, !Fd_prompts, !Fz_prompts, Hu, Hp. lia. }
  enter_sign. pose proof (Fs_exit _ H) as H1. discriminate H1.
Qed.

End MainDetails.

(** * Names and paths *)

(** ** Strings *)

Lemma length_app (a b : string) :
  String.length (a ++ b) = String.length a + String.length b.
Proof. induction a as [| c a IH]; cbn; [reflexivity | rewrite IH; reflexivity]. Qed.

Lemma app_assoc_string (a b c : string) : (a ++ b) ++ c = a ++ b ++ c.
Proof. induction a as [| x a IH]; cbn; [reflexivity | rewrite IH; reflexivity]. Qed.

Lemma get_app_left (a b : string) (i : nat) :
  i < String.length a -> String.get i (a ++ b) = String.get i a.
Proof.
  revert i. induction a as [| c a IH]; cbn; intros i H; [lia | ].
  destruct i as [| i]; [reflexivity | apply IH; lia].
Qed.

Lemma get_app_right (a b : string) (j : nat) :
  String.get (String.length a + j) (a ++ b) = String.get j b.
Proof. induction a as [| c a IH]; cbn; [reflexivity | exact IH]. Qed.

Lemma substring_prefix (s t : string) : substring 0 (String.length s) (s ++ t) = s.
Proof.
  induction s as [| c s IH]; cbn.
  - destruct t; reflexivity.
  - rewrite IH. reflexivity.
Qed.

Lemma substring_whole (s : string) : substring 0 (String.length s) s = s.
Proof.
  induction s as [| c s IH]; cbn; [reflexivity | rewrite IH; reflexivity].
Qed.

Lemma substring_skip (a b : string) (k : nat) :
  substring (String.length a) k (a ++ b) = substring 0 k b.
Proof. induction a as [| c a IH]; cbn; [reflexivity | exact IH]. Qed.

Lemma no_slash_get (s : string) :
  no_slash s = true -> forall i, Path.is_slash (String.get i s) = false.
Proof.
  induction s as [| c s IH]; cbn; intros H i.
  - destruct i; reflexivity.
  - apply andb_true_iff in H. destruct H as [H Hs].
    destruct i as [| i]; cbn; [ | apply IH; exact Hs].
    destruct (Ascii.eqb c "/"); [discriminate H | reflexivity].
Qed.

Lemma no_slash_app (a b : string) : no_slash (a ++ b) = no_slash a && no_slash b.
Proof.
  induction a as [| c a IH]; cbn; [reflexivity | ].
  rewrite IH, andb_assoc. reflexivity.
Qed.

Lemma plain_no_slash (s : string) : plain s = true -> no_slash s = true.
Proof.
  induction s as [| c s IH]; cbn; [reflexivity | ].
  intros H. apply andb_true_iff in H. destruct H as [H Hs].
  apply andb_true_iff in H. destruct H as [H1 _].
  rewrite H1, (IH Hs). reflexivity.
Qed.

Lemma plain_app (a b : string) : plain (a ++ b) = plain a && plain b.
Proof.
  induction a as [| c a IH]; cbn; [reflexivity | ].
  rewrite IH, andb_assoc. reflexivity.
Qed.

Lemma plain_get_dot (s : string) :
  plain s = true -> forall i, Path.is_dot (String.get i s) = false.
Proof.
  induction s as [| c s IH]; cbn; intros H i.
  - destruct i; reflexivity.
  - apply andb_true_iff in H. destruct H as [H Hs].
    apply andb_true_iff in H. destruct H as [_ H2].
    destruct i as [| i]; cbn; [ | apply IH; exact Hs].
    destruct (Ascii.eqb c "."); [discriminate H2 | reflexivity].
Qed.

Lemma of_nat_not_minus_one (n : nat) : (Z.of_nat n =? -1)%Z = false.
Proof. apply Z.eqb_neq. lia. Qed.

Lemma of_nat_succ_not_minus_one (n : nat) : (Z.of_nat n + 1 =? -1)%Z = false.
Proof. apply Z.eqb_neq. lia. Qed.

(** ** The last component of a path *)

Section LastComponent.

Variables pre body : string.
Hypothesis pre_shape : is_dir_prefix pre.
Hypothesis body_no_slash : no_slash body = true.
Hypothesis body_nonempty : body <> "".

Lemma body_length_positive : 0 < String.length body.
Proof. destruct body; [destruct (body_nonempty eq_refl) | cbn; lia]. Qed.

Lemma get_in_body (j : nat) :
  Path.is_slash (String.get (String.length pre + j) (pre ++ body)) = false.
Proof. rewrite get_app_right. apply no_slash_get. exact body_no_slash. Qed.

Lemma get_before_body (q : nat) :
  String.length pre = S q -> Path.is_slash (String.get q (pre ++ body)) = true.
Proof.
  intros Hq. destruct pre_shape as [-> | [d ->]]; [discriminate Hq | ].
  rewrite length_app in Hq. cbn in Hq.
  assert (q = String.length d + 0) as -> by lia.
  rewrite app_assoc_string, get_app_right. reflexivity.
Qed.

(** [basename] *)

Lemma basename_loop_in_body (j : nat) :
  Path.basename_loop (pre ++ body) (String.length pre + j)
    (Path.mkBase 0 (Z.of_nat (String.length (pre ++ body))) false)
  = Path.mkBase (Z.of_nat (String.length pre))
      (Z.of_nat (String.length (pre ++ body))) false.
Proof.
  induction j as [| j IH].
  - rewrite Nat.add_0_r. destruct (String.length pre) as [| q] eqn:Hq; [reflexivity | ].
    cbn [Path.basename_loop]. rewrite (get_before_body q Hq). cbn.
    f_equal. lia.
  - rewrite Nat.add_succ_r. cbn [Path.basename_loop].
    rewrite get_in_body. cbn [Path.b_end]. rewrite of_nat_not_minus_one. exact IH.
Qed.

Lemma basename_last_component : Path.basename (pre ++ body) = body.
Proof.
  unfold Path.basename.
  pose proof body_length_positive as Hb.
  rewrite length_app.
  destruct (String.length body) as [| lb] eqn:Hlb; [lia | ].
  rewrite Nat.add_succ_r. cbn [Path.basename_loop].
  rewrite get_in_body. cbn.
  replace (Z.of_nat (String.length pre + lb) + 1)%Z
    with (Z.of_nat (String.length (pre ++ body))) by (rewrite length_app; lia).
  rewrite basename_loop_in_body. cbn.
  rewrite of_nat_not_minus_one.
  unfold Path.slice. rewrite length_app, Nat2Z.id.
  replace (Z.to_nat (Z.of_nat (String.length pre + String.length body)
                     - Z.of_nat (String.length pre)))
    with (String.length body) by lia.
  rewrite substring_skip. apply substring_whole.
Qed.

End LastComponent.

(** [parse(path).name] of a relative path whose last component is
    [name.ext]. *)

Lemma get_name_dot_ext (n e : string) :
  plain n = true -> plain e = true ->
  forall i,
    Path.is_dot (String.get i (n ++ String "." e)) = (i =? String.length n)%nat.
Proof.
  induction n as [| c n IH]; cbn; intros Hn He i.
  - destruct i as [| i]; cbn; [reflexivity | ].
    apply plain_get_dot. exact He.
  - apply andb_true_iff in Hn. destruct Hn as [H Hn].
    apply andb_true_iff in H. destruct H as [_ H2].
    destruct i as [| i]; cbn; [ | apply IH; assumption].
    destruct (Ascii.eqb c "."); [discriminate H2 | reflexivity].
Qed.

Lemma name_ext_no_slash (n e : string) :
  plain n = true -> plain e = true -> no_slash (n ++ String "." e) = true.
Proof.
  intros Hn He. rewrite no_slash_app. cbn.
  rewrite (plain_no_slash n Hn), (plain_no_slash e He). reflexivity.
Qed.

Lemma name_ext_nonempty (n e : string) : n ++ String "." e <> "".
Proof. destruct n; discriminate. Qed.

Section ParseName.

Variables pre n e : string.
Hypothesis pre_shape : is_dir_prefix pre.
Hypothesis relative : Path.is_slash (String.get 0 (pre ++ n ++ String "." e)) = false.
Hypothesis plain_n : plain n = true.
Hypothesis plain_e : plain e = true.
Hypothesis n_nonempty : n <> "".

Lemma n_length_positive : 0 < String.length n.
Proof. destruct n; [destruct (n_nonempty eq_refl) | cbn; lia]. Qed.

Lemma parse_loop_in_last_component (j : nat) :
  String.length pre + j <= String.length (pre ++ n ++ String "." e) ->
  Path.parse_loop (pre ++ n ++ String "." e) 0 (String.length pre + j)
    (parse_state_at pre n e (String.length pre + j))
  = parse_state_final pre n e.
Proof.
  pose proof n_length_positive as Hn.
  induction j as [| j IH]; intros Hj.
  - rewrite Nat.add_0_r.
    unfold parse_state_at, parse_state_final. cbv zeta.
    rewrite !length_app. cbn [String.length].
    destruct (Nat.leb_spec (String.length pre + (String.length n + S (String.length e)))
                (String.length pre)); [lia | ].
    destruct (Nat.ltb_spec (String.length pre + String.length n) (String.length pre));
      [lia | ].
    destruct (Nat.eqb_spec (String.length pre + String.length n) (String.length pre));
      [lia | ].
    destruct (String.length pre) as [| q] eqn:Hq; [reflexivity | ].
    cbn [Path.parse_loop]. cbv zeta. rewrite Nat.add_0_l.
    rewrite (get_before_body pre (n ++ String "." e) pre_shape q Hq).
    cbn. f_equal. lia.
  - rewrite Nat.add_succ_r in *. specialize (IH ltac:(lia)).
    cbn [Path.parse_loop]. cbv zeta. rewrite Nat.add_0_l.
    rewrite (get_in_body pre (n ++ String "." e) (name_ext_no_slash n e plain_n plain_e) j).
    rewrite get_app_right, (get_name_dot_ext n e plain_n plain_e j).
    cbv iota.
    transitivity (Path.parse_loop (pre ++ n ++ String "." e) 0 (String.length pre + j)
                    (parse_state_at pre n e (String.length pre + j))); [ | exact IH].
    f_equal.
    unfold parse_state_at. cbv zeta.
    rewrite !length_app in *. cbn [String.length] in *.
    destruct (Nat.leb_spec (String.length pre + (String.length n + S (String.length e)))
                (S (String.length pre + j)));
      destruct (Nat.leb_spec (String.length pre + (String.length n + S (String.length e)))
                  (String.length pre + j));
      destruct (Nat.ltb_spec (String.length pre + String.length n)
                  (S (String.length pre + j)));
      destruct (Nat.ltb_spec (String.length pre + String.length n)
                  (String.length pre + j));
      destruct (Nat.eqb_spec (String.length pre + String.length n)
                  (S (String.length pre + j)));
      destruct (Nat.eqb_spec (String.length pre + String.length n)
                  (String.length pre + j));
      destruct (Nat.eqb_spec j (String.length n));
      try lia; cbn;
      repeat (rewrite ?of_nat_not_minus_one, ?of_nat_succ_not_minus_one; cbn);
      try reflexivity; f_equal; lia.
Qed.

Lemma parse_name_last_component : Path.parse_name (pre ++ n ++ String "." e) = n.
Proof.
  pose proof n_length_positive as Hn.
  unfold Path.parse_name.
  replace (String.length (pre ++ n ++ String "." e) =? 0)%nat with false
    by (symmetry; apply Nat.eqb_neq; rewrite !length_app; lia).
  rewrite relative. cbv zeta. rewrite Nat.sub_0_r.
  pose proof (parse_loop_in_last_component (String.length (n ++ String "." e))) as L.
  rewrite <- length_app in L. specialize (L (le_n _)).
  assert (I : parse_state_at pre n e (String.length (pre ++ n ++ String "." e))
              = Path.mkParse (-1) 0 (-1) true 0).
  { unfold parse_state_at. cbv zeta. rewrite Nat.leb_refl. reflexivity. }
  rewrite I in L. rewrite L.
  unfold parse_state_final.
  cbn [Path.p_end Path.p_startPart Path.p_startDot Path.p_preDotState].
  rewrite !of_nat_not_minus_one. rewrite andb_false_r. cbn.
  unfold Path.slice. rewrite Nat2Z.id.
  replace (Z.to_nat (Z.of_nat (String.length pre + String.length n)
                     - Z.of_nat (String.length pre)))
    with (String.length n) by lia.
  rewrite substring_skip. apply substring_prefix.
Qed.

End ParseName.

(** [basename(path, suffix)] of a path whose last component is
    [name ++ suffix]. *)

Lemma same_code_refl (c : option ascii) : Path.same_code c c = true.
Proof. destruct c as [a |]; cbn; [apply Ascii.eqb_refl | reflexivity]. Qed.

Lemma charAt_of_nat (s : string) (k : nat) : Path.charAt s (Z.of_nat k) = String.get k s.
Proof.
  unfold Path.charAt.
  destruct (Z.ltb_spec (Z.of_nat k) 0); [lia | ]. rewrite Nat2Z.id. reflexivity.
Qed.

(** Decides the comparisons of one turn of the loop. *)
Ltac suffix_cases Hm :=
  repeat (cbn [Path.s_start Path.s_end Path.s_matchedSlash Path.s_extIdx
               Path.s_firstNonSlashEnd];
          rewrite ?Hm;
          match goal with
          | |- context [Z.eqb ?a ?b] => destruct (Z.eqb_spec a b); try lia
          | |- context [Z.leb ?a ?b] => destruct (Z.leb_spec a b); try lia
          end);
  cbn [Path.s_start Path.s_end Path.s_matchedSlash Path.s_extIdx
       Path.s_firstNonSlashEnd];
  try reflexivity; f_equal; lia.

Section BasenameSuffix.

Variables pre n suffix : string.
Hypothesis pre_shape : is_dir_prefix pre.
Hypothesis n_no_slash : no_slash n = true.
Hypothesis n_nonempty : n <> "".
Hypothesis suffix_no_slash : no_slash suffix = true.
Hypothesis suffix_nonempty : suffix <> "".

Lemma n_length_positive' : 0 < String.length n.
Proof. destruct n; [destruct (n_nonempty eq_refl) | cbn; lia]. Qed.

Lemma suffix_length_positive : 0 < String.length suffix.
Proof. destruct suffix; [destruct (suffix_nonempty eq_refl) | cbn; lia]. Qed.

Lemma name_suffix_no_slash : no_slash (n ++ suffix) = true.
Proof. rewrite no_slash_app, n_no_slash, suffix_no_slash. reflexivity. Qed.

Lemma suffix_loop_in_last_component (j : nat) :
  String.length pre + j <= String.length (pre ++ n ++ suffix) ->
  Path.basename_suffix_loop (pre ++ n ++ suffix) suffix (String.length pre + j)
    (suffix_state_at pre n suffix (String.length pre + j))
  = suffix_state_final pre n suffix.
Proof.
  pose proof n_length_positive' as Hn.
  pose proof suffix_length_positive as Hs.
  induction j as [| j IH]; intros Hj.
  - rewrite Nat.add_0_r.
    unfold suffix_state_at, suffix_state_final. cbv zeta.
    rewrite !length_app.
    destruct (Nat.leb_spec (String.length pre + (String.length n + String.length suffix))
                (String.length pre)); [lia | ].
    destruct (Nat.ltb_spec (String.length pre + String.length n) (String.length pre));
      [lia | ].
    destruct (String.length pre) as [| q] eqn:Hq; [reflexivity | ].
    cbn [Path.basename_suffix_loop]. cbv zeta.
    rewrite (get_before_body pre (n ++ suffix) pre_shape q Hq).
    cbn. f_equal. lia.
  - rewrite Nat.add_succ_r in *. specialize (IH ltac:(lia)).
    cbn [Path.basename_suffix_loop]. cbv zeta.
    rewrite (get_in_body pre (n ++ suffix) name_suffix_no_slash j).
    cbv iota.
    transitivity (Path.basename_suffix_loop (pre ++ n ++ suffix) suffix
                    (String.length pre + j)
                    (suffix_state_at pre n suffix (String.length pre + j))); [ | exact IH].
    f_equal.
    unfold suffix_state_at, Path.len. cbv zeta.
    rewrite !length_app in *.
    destruct (Nat.leb_spec (String.length pre + (String.length n + String.length suffix))
                (S (String.length pre + j)));
      destruct (Nat.leb_spec (String.length pre + (String.length n + String.length suffix))
                  (String.length pre + j));
      destruct (Nat.ltb_spec (String.length pre + String.length n)
                  (S (String.length pre + j)));
      destruct (Nat.ltb_spec (String.length pre + String.length n)
                  (String.length pre + j));
      try lia.
    + (* the first index examined, the suffix is one character long *)
      assert (Hm : Path.same_code
                     (String.get (String.length pre + j) (pre ++ n ++ suffix))
                     (Path.charAt suffix (Z.of_nat (String.length suffix) - 1)) = true).
      { replace (Z.of_nat (String.length suffix) - 1)%Z
          with (Z.of_nat (String.length suffix - 1)) by lia.
        rewrite charAt_of_nat.
        replace (String.length pre + j)
          with (String.length pre + (String.length n + (String.length suffix - 1))) by lia.
        rewrite !get_app_right. apply same_code_refl. }
      suffix_cases Hm.
    + (* the first index examined *)
      assert (Hm : Path.same_code
                     (String.get (String.length pre + j) (pre ++ n ++ suffix))
                     (Path.charAt suffix (Z.of_nat (String.length suffix) - 1)) = true).
      { replace (Z.of_nat (String.length suffix) - 1)%Z
          with (Z.of_nat (String.length suffix - 1)) by lia.
        rewrite charAt_of_nat.
        replace (String.length pre + j)
          with (String.length pre + (String.length n + (String.length suffix - 1))) by lia.
        rewrite !get_app_right. apply same_code_refl. }
      suffix_cases Hm.
    + (* the last character of the suffix to be matched *)
      assert (Hm : Path.same_code
                     (String.get (String.length pre + j) (pre ++ n ++ suffix))
                     (Path.charAt suffix
                        (Z.of_nat (S (String.length pre + j))
                         - Z.of_nat (String.length pre + String.length n) - 1)) = true).
      { replace (Z.of_nat (S (String.length pre + j))
                 - Z.of_nat (String.length pre + String.length n) - 1)%Z
          with (Z.of_nat (j - String.length n)) by lia.
        rewrite charAt_of_nat.
        replace (String.length pre + j)
          with (String.length pre + (String.length n + (j - String.length n))) at 1 by lia.
        rewrite !get_app_right. apply same_code_refl. }
      suffix_cases Hm.
    + (* within the suffix *)
      assert (Hm : Path.same_code
                     (String.get (String.length pre + j) (pre ++ n ++ suffix))
                     (Path.charAt suffix
                        (Z.of_nat (S (String.length pre + j))
                         - Z.of_nat (String.length pre + String.length n) - 1)) = true).
      { replace (Z.of_nat (S (String.length pre + j))
                 - Z.of_nat (String.length pre + String.length n) - 1)%Z
          with (Z.of_nat (j - String.length n)) by lia.
        rewrite charAt_of_nat.
        replace (String.length pre + j)
          with (String.length pre + (String.length n + (j - String.length n))) at 1 by lia.
        rewrite !get_app_right. apply same_code_refl. }
      suffix_cases Hm.
    + (* within the name *)
      assert (Hm : true = true) by reflexivity.
      suffix_cases Hm.
Qed.

Lemma basename_suffix_last_component :
  Path.basename_suffix (pre ++ n ++ suffix) suffix = n.
Proof.
  pose proof n_length_positive' as Hn.
  pose proof suffix_length_positive as Hs.
  unfold Path.basename_suffix.
  replace (0 <? String.length suffix)%nat with true
    by (symmetry; apply Nat.ltb_lt; exact Hs).
  replace (String.length suffix <=? String.length (pre ++ n ++ suffix))%nat with true
    by (symmetry; apply Nat.leb_le; rewrite !length_app; lia).
  cbn [andb].
  destruct (String.eqb_spec suffix (pre ++ n ++ suffix)) as [E | _].
  { apply (f_equal String.length) in E. rewrite !length_app in E. lia. }
  pose proof (suffix_loop_in_last_component (String.length (n ++ suffix))) as L.
  rewrite <- length_app in L. specialize (L (le_n _)).
  assert (I : suffix_state_at pre n suffix (String.length (pre ++ n ++ suffix))
              = Path.mkSuffix 0 (-1) true (Path.len suffix - 1) (-1)).
  { unfold suffix_state_at. cbv zeta. rewrite Nat.leb_refl. reflexivity. }
  rewrite I in L. rewrite L.
  unfold suffix_state_final. cbv zeta.
  cbn [Path.s_start Path.s_end Path.s_firstNonSlashEnd].
  destruct (Z.eqb_spec (Z.of_nat (String.length pre))
              (Z.of_nat (String.length pre + String.length n))); [lia | ].
  rewrite of_nat_not_minus_one.
  unfold Path.slice. rewrite Nat2Z.id.
  replace (Z.to_nat (Z.of_nat (String.length pre + String.length n)
                     - Z.of_nat (String.length pre)))
    with (String.length n) by lia.
  rewrite substring_skip. apply substring_prefix.
Qed.

End BasenameSuffix.

(** [dirname] *)

Lemma dirname_loop_no_slash (s : string) (k : nat) (b : bool) :
  no_slash s = true -> Path.dirname_loop s k b = (-1)%Z.
Proof.
  intros Hs. revert b. induction k as [| k IH]; intros b; [reflexivity | ].
  cbn [Path.dirname_loop]. rewrite (no_slash_get s Hs). apply IH.
Qed.

(** A file name alone is in the current directory. *)
Lemma dirname_of_file (s : string) :
  no_slash s = true -> s <> "" -> Path.dirname s = ".".
Proof.
  intros Hs Hne. unfold Path.dirname.
  destruct s as [| c s']; [destruct (Hne eq_refl) | ].
  cbn [String.length Nat.eqb]. cbv zeta.
  rewrite (dirname_loop_no_slash _ _ _ Hs), (no_slash_get _ Hs). reflexivity.
Qed.

Section DirnameInDir.

Variables d body : string.
Hypothesis d_no_slash : no_slash d = true.
Hypothesis d_nonempty : d <> "".
Hypothesis body_no_slash : no_slash body = true.
Hypothesis body_nonempty : body <> "".

Lemma dir_prefix_shape : is_dir_prefix (d ++ "/").
Proof. right. exists d. reflexivity. Qed.

Lemma dirname_loop_in_dir (j : nat) (b : bool) :
  (j = 0 -> b = false) ->
  Path.dirname_loop ((d ++ "/") ++ body) (String.length d + j) b
  = Z.of_nat (String.length d).
Proof.
  revert b. induction j as [| j IH]; intros b Hb.
  - rewrite Nat.add_0_r, (Hb eq_refl).
    destruct (String.length d) as [| q] eqn:Hq.
    { destruct d; [destruct (d_nonempty eq_refl) | discriminate Hq]. }
    cbn [Path.dirname_loop].
    assert (Hslash : Path.is_slash (String.get (S q) ((d ++ "/") ++ body)) = true).
    { rewrite <- Hq. replace (String.length d) with (String.length d + 0) by lia.
      rewrite app_assoc_string, get_app_right. reflexivity. }
    rewrite Hslash. reflexivity.
  - rewrite Nat.add_succ_r. cbn [Path.dirname_loop].
    assert (Hc : Path.is_slash (String.get (S (String.length d + j)) ((d ++ "/") ++ body))
                 = false).
    { replace (S (String.length d + j)) with (String.length (d ++ "/") + j)
        by (rewrite length_app; cbn; lia).
      apply get_in_body. exact body_no_slash. }
    rewrite Hc. apply IH. intros _. reflexivity.
Qed.

Lemma dirname_in_dir : Path.dirname ((d ++ "/") ++ body) = d.
Proof.
  unfold Path.dirname.
  replace (String.length ((d ++ "/") ++ body) =? 0)%nat with false
    by (symmetry; apply Nat.eqb_neq; rewrite !length_app; cbn; lia).
  cbv zeta.
  assert (Hb : 0 < String.length body).
  { destruct body; [destruct (body_nonempty eq_refl) | cbn; lia]. }
  replace (String.length ((d ++ "/") ++ body) - 1)
    with (String.length d + String.length body)
    by (rewrite !length_app; cbn; lia).
  rewrite dirname_loop_in_dir by lia.
  rewrite of_nat_not_minus_one.
  assert (Hroot : Path.is_slash (String.get 0 ((d ++ "/") ++ body)) = false).
  { rewrite app_assoc_string, get_app_left.
    - apply no_slash_get. exact d_no_slash.
    - destruct d; [destruct (d_nonempty eq_refl) | cbn; lia]. }
  rewrite Hroot. cbn [andb].
  unfold Path.slice. rewrite Z.sub_0_r, Nat2Z.id. cbn [Z.to_nat].
  rewrite app_assoc_string. apply substring_prefix.
Qed.

End DirnameInDir.

(** [join] *)

Lemma plain_not_special (s : string) : plain s = true -> s <> "" -> special s = false.
Proof.
  intros Hs Hne. destruct s as [| c s']; [destruct (Hne eq_refl) | ].
  cbn in Hs. apply andb_true_iff in Hs. destruct Hs as [H _].
  apply andb_true_iff in H. destruct H as [_ H2].
  unfold special. cbn. destruct (Ascii.eqb c "."); [discriminate H2 | reflexivity].
Qed.

Lemma plain_head_not_special (n rest : string) :
  plain n = true -> n <> "" -> special (n ++ rest) = false.
Proof.
  intros Hs Hne. destruct n as [| c s']; [destruct (Hne eq_refl) | ].
  cbn in Hs. apply andb_true_iff in Hs. destruct Hs as [H _].
  apply andb_true_iff in H. destruct H as [_ H2].
  unfold special. cbn. destruct (Ascii.eqb c "."); [discriminate H2 | reflexivity].
Qed.

Lemma not_special_nonempty (s : string) : special s = false -> 0 < String.length s.
Proof. destruct s; cbn; [discriminate | lia]. Qed.

Lemma split_slash_no_slash (cur x : string) :
  no_slash x = true -> Path.split_slash cur x = [cur ++ x].
Proof.
  revert cur. induction x as [| c x IH]; cbn; intros cur H.
  - replace (cur ++ "") with cur; [reflexivity | ].
    induction cur as [| a cur IHc]; cbn; [reflexivity | rewrite <- IHc; reflexivity].
  - apply andb_true_iff in H. destruct H as [Hc Hx].
    destruct (Ascii.eqb c "/"); [discriminate Hc | ].
    rewrite (IH _ Hx), app_assoc_string. reflexivity.
Qed.

Lemma split_slash_dir (cur d y : string) :
  no_slash d = true ->
  Path.split_slash cur (d ++ String "/" y) = (cur ++ d) :: Path.split_slash "" y.
Proof.
  revert cur. induction d as [| c d IH]; cbn; intros cur H.
  - replace (cur ++ "") with cur; [reflexivity | ].
    induction cur as [| a cur IHc]; cbn; [reflexivity | rewrite <- IHc; reflexivity].
  - apply andb_true_iff in H. destruct H as [Hc Hd].
    destruct (Ascii.eqb c "/"); [discriminate Hc | ].
    rewrite (IH _ Hd), app_assoc_string. reflexivity.
Qed.

Lemma keep_segment (allow : bool) (seg : string) (rest res : list string) :
  special seg = false ->
  Path.normalize_segments allow (seg :: rest) res
  = Path.normalize_segments allow rest (seg :: res).
Proof.
  unfold special. intros H.
  apply orb_false_iff in H. destruct H as [H H3].
  apply orb_false_iff in H. destruct H as [H1 H2].
  cbn [Path.normalize_segments]. rewrite H1, H2, H3. reflexivity.
Qed.

Lemma last_char_no_slash (a y : string) :
  no_slash y = true -> 0 < String.length y ->
  Path.is_slash (String.get (String.length (a ++ y) - 1) (a ++ y)) = false.
Proof.
  intros Hy Hl.
  replace (String.length (a ++ y) - 1) with (String.length a + (String.length y - 1))
    by (rewrite length_app; lia).
  rewrite get_app_right. apply no_slash_get. exact Hy.
Qed.

(** Joining a directory name and a file name. *)
Lemma join_dir_file (d y : string) :
  no_slash d = true -> special d = false ->
  no_slash y = true -> special y = false ->
  Path.join [d; y] = (d ++ "/") ++ y.
Proof.
  intros Hd Sd Hy Sy.
  pose proof (not_special_nonempty d Sd) as Ld.
  pose proof (not_special_nonempty y Sy) as Ly.
  unfold Path.join. cbn [filter].
  replace (0 <? String.length d)%nat with true by (symmetry; apply Nat.ltb_lt; exact Ld).
  replace (0 <? String.length y)%nat with true by (symmetry; apply Nat.ltb_lt; exact Ly).
  cbn [String.concat].
  change (d ++ "/" ++ y) with (d ++ String "/" y).
  unfold Path.normalize.
  replace (String.length (d ++ String "/" y) =? 0)%nat with false
    by (symmetry; apply Nat.eqb_neq; rewrite length_app; cbn; lia).
  cbv zeta.
  assert (Hroot : Path.is_slash (String.get 0 (d ++ String "/" y)) = false).
  { rewrite get_app_left by exact Ld. apply no_slash_get. exact Hd. }
  assert (Hlast : Path.is_slash
                    (String.get (String.length (d ++ String "/" y) - 1) (d ++ String "/" y))
                  = false).
  { change (d ++ String "/" y) with (d ++ "/" ++ y).
    rewrite <- app_assoc_string. apply last_char_no_slash; assumption. }
  rewrite Hroot, Hlast. cbn [negb].
  unfold Path.normalizeString.
  rewrite (split_slash_dir "" d y Hd), (split_slash_no_slash "" y Hy).
  cbn [append].
  rewrite (keep_segment true d [y] [] Sd), (keep_segment true y [] [d] Sy).
  cbn [Path.normalize_segments rev app String.concat].
  change (d ++ "/" ++ y) with (d ++ String "/" y).
  replace (String.length (d ++ String "/" y) =? 0)%nat with false
    by (symmetry; apply Nat.eqb_neq; rewrite length_app; cbn; lia).
  rewrite app_assoc_string. reflexivity.
Qed.

(** Joining the current directory and a file name. *)
Lemma join_dot_file (y : string) :
  no_slash y = true -> special y = false -> Path.join ["."; y] = y.
Proof.
  intros Hy Sy.
  pose proof (not_special_nonempty y Sy) as Ly.
  unfold Path.join. cbn [filter].
  change (0 <? String.length ".")%nat with true.
  replace (0 <? String.length y)%nat with true by (symmetry; apply Nat.ltb_lt; exact Ly).
  cbn [String.concat].
  change ("." ++ "/" ++ y) with ("./" ++ y).
  unfold Path.normalize.
  replace (String.length ("./" ++ y) =? 0)%nat with false by reflexivity.
  cbv zeta.
  rewrite (last_char_no_slash "./" y Hy Ly).
  change (Path.is_slash (String.get 0 ("./" ++ y))) with false. cbn [negb].
  change ("./" ++ y) with (String "." (String "/" y)).
  unfold Path.normalizeString.
  change (Path.split_slash "" (String "." (String "/" y)))
    with ("." :: Path.split_slash "" y).
  rewrite (split_slash_no_slash "" y Hy). cbn [append].
  change (Path.normalize_segments true ["."; y] [])
    with (Path.normalize_segments true [y] []).
  rewrite (keep_segment true y [] [] Sy).
  cbn [Path.normalize_segments rev app String.concat].
  replace (String.length y =? 0)%nat with false
    by (symmetry; apply Nat.eqb_neq; lia).
  reflexivity.
Qed.

(** ** The names the script derives *)

Lemma named_file_shape (n suffix : string) :
  plain n = true -> n <> "" -> no_slash suffix = true ->
  no_slash (n ++ suffix) = true /\ special (n ++ suffix) = false /\ n ++ suffix <> "".
Proof.
  intros Hn Hne Hs. split; [ | split].
  - rewrite no_slash_app, (plain_no_slash n Hn), Hs. reflexivity.
  - apply plain_head_not_special; assumption.
  - destruct n; [destruct (Hne eq_refl) | discriminate].
Qed.

Lemma relative_in_directory (d body : string) :
  plain d = true -> d <> "" ->
  Path.is_slash (String.get 0 ((d ++ "/") ++ body)) = false.
Proof.
  intros Hd Hne. rewrite app_assoc_string, get_app_left.
  - apply no_slash_get. apply plain_no_slash. exact Hd.
  - destruct d; [destruct (Hne eq_refl) | cbn; lia].
Qed.

Section NamesOfFile.

Variables n e : string.
Hypothesis plain_n : plain n = true.
Hypothesis n_nonempty : n <> "".
Hypothesis plain_e : plain e = true.

Lemma archive_path_of_file : archive_path (n ++ "." ++ e) = n ++ "_not_signed.rbz".
Proof.
  unfold archive_path. change (n ++ "." ++ e) with ("" ++ n ++ String "." e).
  rewrite (parse_name_last_component "" n e (or_introl eq_refl)
             (no_slash_get _ (name_ext_no_slash n e plain_n plain_e) 0)
             plain_n plain_e n_nonempty).
  change ("" ++ n ++ String "." e) with (n ++ String "." e).
  rewrite (dirname_of_file _ (name_ext_no_slash n e plain_n plain_e)
             (name_ext_nonempty n e)).
  rewrite (join_dot_file n (plain_no_slash n plain_n)
             (plain_not_special n plain_n n_nonempty)).
  reflexivity.
Qed.

Lemma outputPath_of_file : outputPath (n ++ "_not_signed.rbz") = n ++ "_signed.rbz".
Proof.
  destruct (named_file_shape n "_not_signed.rbz" plain_n n_nonempty eq_refl)
    as (Ha1 & Ha2 & Ha3).
  destruct (named_file_shape n "_signed.rbz" plain_n n_nonempty eq_refl)
    as (Hb1 & Hb2 & Hb3).
  unfold outputPath.
  rewrite (dirname_of_file _ Ha1 Ha3).
  change (n ++ "_not_signed.rbz") with ("" ++ n ++ "_not_signed.rbz").
  rewrite (basename_suffix_last_component "" n "_not_signed.rbz" (or_introl eq_refl)
             (plain_no_slash n plain_n) n_nonempty eq_refl ltac:(discriminate)).
  apply join_dot_file; assumption.
Qed.

(** X19: for an output file [n.e] given without directory, [n] and [e]
    free of separators and dots, the archive is [n_not_signed.rbz] and
    the output path derived from it is [n_signed.rbz], a file of that
    name in the current directory. *)
Theorem names_for_output_file :
  archive_path (n ++ "." ++ e) = n ++ "_not_signed.rbz" /\
  outputPath (archive_path (n ++ "." ++ e)) = n ++ "_signed.rbz" /\
  Path.dirname (n ++ "_signed.rbz") = "." /\
  Path.basename (n ++ "_signed.rbz") = n ++ "_signed.rbz".
Proof.
  destruct (named_file_shape n "_signed.rbz" plain_n n_nonempty eq_refl)
    as (Hb1 & Hb2 & Hb3).
  split; [apply archive_path_of_file | ].
  split; [rewrite archive_path_of_file; apply outputPath_of_file | ].
  split; [apply dirname_of_file; assumption | ].
  change (n ++ "_signed.rbz") with ("" ++ n ++ "_signed.rbz") at 1.
  apply (basename_last_component "" (n ++ "_signed.rbz") (or_introl eq_refl) Hb1 Hb3).
Qed.

End NamesOfFile.

Section NamesInDirectory.

Variables d n e : string.
Hypothesis plain_d : plain d = true.
Hypothesis d_nonempty : d <> "".
Hypothesis plain_n : plain n = true.
Hypothesis n_nonempty : n <> "".
Hypothesis plain_e : plain e = true.

Lemma archive_path_in_directory :
  archive_path (d ++ "/" ++ n ++ "." ++ e) = d ++ "/" ++ n ++ "_not_signed.rbz".
Proof.
  pose proof (plain_no_slash d plain_d) as Hd.
  pose proof (plain_not_special d plain_d d_nonempty) as Sd.
  rewrite <- !(app_assoc_string d "/").
  unfold archive_path. change ("." ++ e) with (String "." e).
  rewrite (parse_name_last_component (d ++ "/") n e (dir_prefix_shape d)
             (relative_in_directory d _ plain_d d_nonempty) plain_n plain_e n_nonempty).
  rewrite (dirname_in_dir d (n ++ String "." e) Hd d_nonempty
             (name_ext_no_slash n e plain_n plain_e) (name_ext_nonempty n e)).
  rewrite (join_dir_file d n Hd Sd (plain_no_slash n plain_n)
             (plain_not_special n plain_n n_nonempty)).
  apply app_assoc_string.
Qed.

Lemma outputPath_in_directory :
  outputPath (d ++ "/" ++ n ++ "_not_signed.rbz") = d ++ "/" ++ n ++ "_signed.rbz".
Proof.
  destruct (named_file_shape n "_not_signed.rbz" plain_n n_nonempty eq_refl)
    as (Ha1 & Ha2 & Ha3).
  destruct (named_file_shape n "_signed.rbz" plain_n n_nonempty eq_refl)
    as (Hb1 & Hb2 & Hb3).
  pose proof (plain_no_slash d plain_d) as Hd.
  pose proof (plain_not_special d plain_d d_nonempty) as Sd.
  rewrite <- !(app_assoc_string d "/").
  unfold outputPath.
  rewrite (dirname_in_dir d _ Hd d_nonempty Ha1 Ha3).
  rewrite (basename_suffix_last_component (d ++ "/") n "_not_signed.rbz"
             (dir_prefix_shape d) (plain_no_slash n plain_n) n_nonempty
             eq_refl ltac:(discriminate)).
  apply join_dir_file; assumption.
Qed.

Lemma target_in_directory :
  Path.dirname (d ++ "/" ++ n ++ "_signed.rbz") = d /\
  Path.basename (d ++ "/" ++ n ++ "_signed.rbz") = n ++ "_signed.rbz".
Proof.
  destruct (named_file_shape n "_signed.rbz" plain_n n_nonempty eq_refl)
    as (Hb1 & Hb2 & Hb3).
  rewrite <- !(app_assoc_string d "/"). split.
  - apply dirname_in_dir; [apply plain_no_slash | | | ]; assumption.
  - apply (basename_last_component (d ++ "/") (n ++ "_signed.rbz")
             (dir_prefix_shape d) Hb1 Hb3).
Qed.

(** X20: for an output path [d/n.e], the three names free of separators
    and dots, the archive is [d/n_not_signed.rbz] and the output path
    derived from it is [d/n_signed.rbz], that is the name [n_signed.rbz]
    in the directory [d]. *)
Theorem names_for_output_in_directory :
  archive_path (d ++ "/" ++ n ++ "." ++ e) = d ++ "/" ++ n ++ "_not_signed.rbz" /\
  outputPath (archive_path (d ++ "/" ++ n ++ "." ++ e)) = d ++ "/" ++ n ++ "_signed.rbz" /\
  Path.dirname (d ++ "/" ++ n ++ "_signed.rbz") = d /\
  Path.basename (d ++ "/" ++ n ++ "_signed.rbz") = n ++ "_signed.rbz".
Proof.
  split; [apply archive_path_in_directory | ].
  split; [rewrite archive_path_in_directory; apply outputPath_in_directory | ].
  apply target_in_directory.
Qed.

End NamesInDirectory.

Section MainNames.

Variable W : Type.
Variable respond : forall c : Call, W -> Result (ret_ty c) * W.
Variable argv : Argv.t.

(** Where the files of a run of [main] go, in terms of the derived
    paths. *)
Lemma main_paths (o : string) (w : W) :
  Argv.output argv = Some o ->
  let r := main respond argv w in
  (written (trace r) = [] \/ written (trace r) = [archive_path o]) /\
  (uploads (trace r) = [] \/ uploads (trace r) = [[archive_path o]]) /\
  forallb (downloads_to (Path.dirname (outputPath (archive_path o)))
                        (Path.basename (outputPath (archive_path o))))
          (trace r) = true.
Proof.
  intros Ho r. subst r. split; [ | split].
  - unfold main. rewrite bind_run.
    destruct (createOutputDir_footprint W respond (Argv.output argv) w)
      as (_ & _ & Fd & _).
    destruct (outcome (createOutputDir respond (Argv.output argv) w)) as [[] | e1 | c1];
      cbn [outcome trace world]; cbv zeta; [ | left; exact Fd | left; exact Fd].
    rewrite bind_run.
    match goal with
    | |- context [getCredentials respond argv ?w1] =>
        destruct (getCredentials_footprint W respond argv w1) as (_ & Fg & _);
        destruct (outcome (getCredentials respond argv w1)) as [[u p] | e2 | c2];
        cbn [outcome trace world]; cbv zeta
    end.
    2, 3: left; rewrite written_app, Fd, Fg; reflexivity.
    rewrite bind_run.
    match goal with
    | |- context [zip respond argv ?out ?w2] =>
        destruct (zip_footprint W respond argv out w2) as (_ & _ & Fz & _ & Fr);
        destruct (outcome (zip respond argv out w2)) as [rbz | e3 | c3];
        cbn [outcome trace world]; cbv zeta
    end.
    2, 3: rewrite !written_app, Fd, Fg; cbn [app];
          destruct Fz as [-> | (o' & Ho' & ->)]; [left; reflexivity | right];
          rewrite Ho in Ho'; injection Ho' as <-; reflexivity.
    match goal with
    | |- context [sign respond argv ?z ?u ?p ?w3] =>
        destruct (sign_footprint W respond argv z u p w3) as (Fs & _)
    end.
    rewrite !written_app, Fd, Fg, Fs. cbn [app]. rewrite app_nil_r.
    destruct Fz as [-> | (o' & Ho' & ->)]; [left; reflexivity | right].
    rewrite Ho in Ho'. injection Ho' as <-. reflexivity.
  - unfold main. rewrite bind_run.
    destruct (createOutputDir_footprint W respond (Argv.output argv) w)
      as (_ & Fd & _).
    destruct (outcome (createOutputDir respond (Argv.output argv) w)) as [[] | e1 | c1];
      cbn [outcome trace world]; cbv zeta; [ | left; exact Fd | left; exact Fd].
    rewrite bind_run.
    match goal with
    | |- context [getCredentials respond argv ?w1] =>
        destruct (getCredentials_footprint W respond argv w1) as (Fg & _);
        destruct (outcome (getCredentials respond argv w1)) as [[u p] | e2 | c2];
        cbn [outcome trace world]; cbv zeta
    end.
    2, 3: left; rewrite uploads_app, Fd, Fg; reflexivity.
    rewrite bind_run.
    match goal with
    | |- context [zip respond argv ?out ?w2] =>
        destruct (zip_footprint W respond argv out w2) as (Fz & _ & Fw & _ & Fr);
        destruct (outcome (zip respond argv out w2)) as [rbz | e3 | c3] eqn:E3;
        cbn [outcome trace world]; cbv zeta
    end.
    2, 3: left; rewrite !uploads_app, Fd, Fg, Fz; reflexivity.
    match goal with
    | |- context [sign respond argv ?z ?u ?p ?w3] =>
        destruct (sign_footprint W respond argv z u p w3) as (_ & _ & Fs & _)
    end.
    rewrite !uploads_app, Fd, Fg, Fz. cbn [app].
    destruct Fw as [Hw | (o' & Ho' & Hw)];
      rewrite (Fr rbz eq_refl) in Hw; [discriminate Hw | ].
    rewrite Ho in Ho'. injection Ho' as <-. injection Hw as ->.
    exact Fs.
  - unfold main. rewrite Ho.
    apply forallb_bind.
    { eapply forallb_weaken; [apply not_flow_downloads_to | apply createOutputDir_quiet]. }
    intros _ _. apply forallb_bind.
    { eapply forallb_weaken; [apply not_flow_downloads_to | apply getCredentials_quiet]. }
    intros [u p] _. apply forallb_bind.
    { eapply forallb_weaken; [apply not_flow_downloads_to | apply zip_quiet]. }
    intros rbz Hz. apply zip_returns in Hz. destruct Hz as (o' & Ho' & ->).
    injection Ho' as <-. apply sign_downloads_to_outputPath.
Qed.

(** X21: with [--output d/n.e], the three names free of separators and
    dots, the one file [main] writes and uploads is
    [d/n_not_signed.rbz], and every download goes into the directory [d]
    under the name [n_signed.rbz]. *)
Theorem main_files_for_output_in_directory (d n e : string) (w : W) :
  plain d = true -> d <> "" ->
  plain n = true -> n <> "" ->
  plain e = true ->
  Argv.output argv = Some (d ++ "/" ++ n ++ "." ++ e) ->
  let r := main respond argv w in
  (written (trace r) = [] \/ written (trace r) = [d ++ "/" ++ n ++ "_not_signed.rbz"]) /\
  (uploads (trace r) = [] \/ uploads (trace r) = [[d ++ "/" ++ n ++ "_not_signed.rbz"]]) /\
  forallb (downloads_to d (n ++ "_signed.rbz")) (trace r) = true.
Proof.
  intros Hd Hdn Hn Hnn He Ho.
  pose proof (main_paths _ w Ho) as P. cbv zeta in P.
  rewrite (archive_path_in_directory d n e Hd Hdn Hn Hnn He) in P.
  rewrite (outputPath_in_directory d n Hd Hdn Hn Hnn) in P.
  destruct (target_in_directory d n Hd Hdn Hn Hnn) as [Td Tb].
  rewrite Td, Tb in P. exact P.
Qed.

End MainNames.

(** ** The output option and the signed file *)

Lemma app_inv_head_string (a b c : string) : a ++ b = a ++ c -> b = c.
Proof.
  induction a as [| x a IH]; cbn; intros H; [exact H | ].
  injection H as H. exact (IH H).
Qed.

Lemma downloads_to_In (d f : string) (tr : list Event)
    (url dir filename : string) (ok : bool) :
  forallb (downloads_to d f) tr = true ->
  In (Called (Download url dir filename) ok) tr ->
  dir = d /\ filename = f.
Proof.
  intros H I. rewrite forallb_forall in H. specialize (H _ I). cbn in H.
  apply andb_true_iff in H. destruct H as [Hd Hf].
  apply String.eqb_eq in Hd, Hf. auto.
Qed.

Section OutputOption.

Variable W : Type.
Variable respond : forall c : Call, W -> Result (ret_ty c) * W.
Variable argv : Argv.t.

Ltac find_event := first [ left; reflexivity | right; find_event ].

(** A run of [sign] that returns has asked for the download. *)
Lemma sign_returns_after_download
    (rbzPath : string) (username password : JsString) (w : W) :
  let r := sign respond argv rbzPath username password w in
  outcome r = Returned tt ->
  exists url ok,
    In (Called (Download url (Path.dirname (outputPath rbzPath))
                             (Path.basename (outputPath rbzPath))) ok)
       (trace r).
Proof.
  intros r. name_run r. unfold_script.
  repeat answer_step respond; intros -> H; cbn [outcome trace] in *;
    try discriminate H;
    do 2 eexists; cbv beta iota delta [In]; find_event.
Qed.

Lemma main_returns_after_download (o : string) (w : W) :
  Argv.output argv = Some o ->
  let r := main respond argv w in
  outcome r = Returned tt ->
  exists url ok,
    In (Called (Download url (Path.dirname (outputPath (archive_path o)))
                             (Path.basename (outputPath (archive_path o)))) ok)
       (trace r).
Proof.
  intros Ho r. subst r. unfold main. rewrite Ho. rewrite bind_run.
  destruct (outcome (createOutputDir respond (Some o) w)) as [[] | e1 | c1];
    cbn [outcome trace world]; cbv zeta; try discriminate.
  rewrite bind_run.
  match goal with
  | |- context [getCredentials respond argv ?w1] =>
      destruct (outcome (getCredentials respond argv w1)) as [[u p] | e2 | c2];
      cbn [outcome trace world]; cbv zeta; try discriminate
  end.
  rewrite bind_run.
  match goal with
  | |- context [zip respond argv ?out ?w2] =>
      pose proof (zip_returns W respond argv out w2) as Hz;
      destruct (outcome (zip respond argv out w2)) as [rbz | e3 | c3];
      cbn [outcome trace world]; cbv zeta; try discriminate
  end.
  destruct (Hz rbz eq_refl) as (o' & Ho' & ->). injection Ho' as <-.
  intros H.
  match goal with
  | |- context [sign respond argv ?z ?u ?p ?w3] =>
      destruct (sign_returns_after_download z u p w3 H) as (url & ok & I)
  end.
  exists url, ok. apply in_or_app. right. apply in_or_app. right.
  apply in_or_app. right. exact I.
Qed.

(** C5, what the script does: the archive [n_not_signed.rbz] gives the
    output name [n_signed.rbz]; with [--output d/n.e], the three names
    free of separators and dots, every download of the run is written to
    [d/n_signed.rbz], which is not the output path; a run that returns
    has asked for that download, so that the signed file is not at the
    path the option names. *)
Theorem signed_file_misses_the_output_path (d n e : string) (w : W) :
  plain d = true -> d <> "" ->
  plain n = true -> n <> "" ->
  plain e = true ->
  Argv.output argv = Some (d ++ "/" ++ n ++ "." ++ e) ->
  let r := main respond argv w in
  outputPath (n ++ "_not_signed.rbz") = n ++ "_signed.rbz" /\
  (forall url dir filename ok,
      In (Called (Download url dir filename) ok) (trace r) ->
      Path.join [dir; filename] = d ++ "/" ++ n ++ "_signed.rbz") /\
  d ++ "/" ++ n ++ "_signed.rbz" <> d ++ "/" ++ n ++ "." ++ e /\
  (outcome r = Returned tt ->
   (exists url ok, In (Called (Download url d (n ++ "_signed.rbz")) ok) (trace r)) /\
   ~ downloads_to_exact_path (d ++ "/" ++ n ++ "." ++ e) (trace r)).
Proof.
  intros Hd Hdn Hn Hnn He Ho r.
  pose proof (main_paths W respond argv _ w Ho) as (_ & _ & P). fold r in P.
  pose proof (main_returns_after_download _ w Ho) as Q. fold r in Q.
  rewrite (archive_path_in_directory d n e Hd Hdn Hn Hnn He) in P, Q.
  rewrite (outputPath_in_directory d n Hd Hdn Hn Hnn) in P, Q.
  destruct (target_in_directory d n Hd Hdn Hn Hnn) as [Td Tb].
  rewrite Td, Tb in P, Q.
  destruct (named_file_shape n "_signed.rbz" Hn Hnn eq_refl) as (Hb1 & Hb2 & Hb3).
  assert (J : Path.join [d; n ++ "_signed.rbz"] = d ++ "/" ++ n ++ "_signed.rbz").
  { rewrite (join_dir_file d _ (plain_no_slash d Hd) (plain_not_special d Hd Hdn) Hb1 Hb2).
    apply app_assoc_string. }
  assert (N : d ++ "/" ++ n ++ "_signed.rbz" <> d ++ "/" ++ n ++ "." ++ e).
  { intros E. apply app_inv_head_string in E. apply app_inv_head_string in E.
    apply app_inv_head_string in E. discriminate E. }
  split; [apply (outputPath_of_file n Hn Hnn) | ].
  split.
  { intros url dir filename ok I.
    destruct (downloads_to_In _ _ _ _ _ _ _ P I) as [-> ->]. exact J. }
  split; [exact N | ].
  intros R. destruct (Q R) as (url & ok & I).
  split; [exists url, ok; exact I | ].
  intros X. specialize (X _ _ _ _ I). rewrite J in X. exact (N X).
Qed.

End OutputOption.

(** C5, witness: [--output out/widget.rbz] in a world where everything
    works; the signed file is written to [out/widget_signed.rbz]. *)
Lemma signed_file_misses_the_output_path_witness :
  Argv.output argv_flags = Some ("out" ++ "/" ++ "widget" ++ "." ++ "rbz")
  /\ outcome (main (scenario all_good) argv_flags 0) = Returned tt
  /\ (exists url ok,
        In (Called (Download url "out" "widget_signed.rbz") ok)
           (trace (main (scenario all_good) argv_flags 0)))
  /\ ~ downloads_to_exact_path "out/widget.rbz" (trace (main (scenario all_good) argv_flags 0)).
Proof.
  split; [reflexivity | ]. split; [reflexivity | ].
  exact (proj2 (proj2 (proj2
           (signed_file_misses_the_output_path nat (scenario all_good) argv_flags
              "out" "widget" "rbz" 0
              eq_refl ltac:(discriminate) eq_refl ltac:(discriminate) eq_refl eq_refl)))
           eq_refl).
Defined.

(** * The earlier revision *)

(** ** The earlier revision: archive, signing and the whole run *)

Ltac unfold_legacy :=
  cbv beta iota zeta delta
    [LegacyFlow.main LegacyFlow.zip LegacyFlow.sign LegacyFlow.outputName
     LegacyFlow.lbind LegacyFlow.lret LegacyFlow.lift LegacyFlow.rename LegacyFlow.now
     LegacyFlow.loutcome LegacyFlow.ltrace LegacyFlow.lworld
     Legacy.getCredentials
     settle try_catch bind call console ret throw process_exit
     outcome trace world app map].

Ltac legacy_step respond renameSync :=
  first
    [ match goal with
      | |- context [respond ?c ?w] =>
          let v := fresh "v" in
          let e := fresh "e" in
          let w' := fresh "w" in
          destruct (respond c w) as [[v | e] w'] eqn:?
      end
    | match goal with
      | |- context [renameSync ?a ?b ?w] =>
          let v := fresh "v" in
          let e := fresh "e" in
          let w' := fresh "w" in
          destruct (renameSync a b w) as [[v | e] w'] eqn:?
      end ];
  cbv beta iota zeta delta [app map].

(** Follows the earlier [sign] to its end, the final rename included. *)
Ltac follow_legacy_sign respond renameSync output :=
  repeat legacy_step respond renameSync;
  try match goal with
      | |- context [renameSync] =>
          let o := fresh "o" in
          let Ht := fresh "Ht" in
          destruct output as [o |];
          [destruct (truthy (Some o)) eqn:Ht | ];
          cbv beta iota;
          repeat legacy_step respond renameSync
      end.

Lemma plain_digits (d : Decimal.uint) : plain (NilEmpty.string_of_uint d) = true.
Proof. induction d; cbn; auto. Qed.

Lemma plain_number (n : Z) : plain (LegacyFlow.number_to_string n) = true.
Proof.
  unfold LegacyFlow.number_to_string, NilZero.string_of_int, NilZero.string_of_uint.
  destruct (Z.to_int n) as [d | d]; destruct d; cbn;
    rewrite ?plain_digits; reflexivity.
Qed.

(** The name of the archive of the earlier revision, without its
    extension. *)
Lemma parse_name_of_timestamped (n : Z) (ext : string) :
  plain ext = true ->
  Path.parse_name ("extension_" ++ LegacyFlow.number_to_string n ++ String "." ext)
  = "extension_" ++ LegacyFlow.number_to_string n.
Proof.
  intros Hext.
  change ("extension_" ++ LegacyFlow.number_to_string n ++ String "." ext)
    with (("extension_" ++ LegacyFlow.number_to_string n) ++ String "." ext).
  change (("extension_" ++ LegacyFlow.number_to_string n) ++ String "." ext)
    with ("" ++ ("extension_" ++ LegacyFlow.number_to_string n) ++ String "." ext).
  assert (Hn : plain ("extension_" ++ LegacyFlow.number_to_string n) = true).
  { rewrite plain_app, plain_number. reflexivity. }
  apply parse_name_last_component;
    [left; reflexivity | | exact Hn | exact Hext | discriminate].
  apply no_slash_get. apply name_ext_no_slash; assumption.
Qed.

Section LegacyLaws.

Variable W : Type.

Lemma lbind_run {A B} (m : LegacyFlow.LM W A) (f : A -> LegacyFlow.LM W B) (w : W) :
  LegacyFlow.lbind m f w =
    match LegacyFlow.loutcome (m w) with
    | Returned a =>
        let r := f a (LegacyFlow.lworld (m w)) in
        LegacyFlow.mkLRun (LegacyFlow.loutcome r) (LegacyFlow.lworld r)
          (LegacyFlow.ltrace (m w) ++ LegacyFlow.ltrace r)
    | Threw e => LegacyFlow.mkLRun (Threw e) (LegacyFlow.lworld (m w)) (LegacyFlow.ltrace (m w))
    | Exited code =>
        LegacyFlow.mkLRun (Exited code) (LegacyFlow.lworld (m w)) (LegacyFlow.ltrace (m w))
    end.
Proof.
  unfold LegacyFlow.lbind. destruct (m w) as [[a | e | code] w1 t1]; cbn; try reflexivity.
  destruct (f a w1); reflexivity.
Qed.

Lemma shared_app (a b : list LegacyFlow.Step) :
  LegacyFlow.shared (a ++ b) = (LegacyFlow.shared a ++ LegacyFlow.shared b)%list.
Proof.
  induction a as [| [ev | x y ok] a IH]; cbn; [reflexivity | | exact IH].
  rewrite IH. reflexivity.
Qed.

Lemma renames_app (a b : list LegacyFlow.Step) :
  LegacyFlow.renames (a ++ b) = (LegacyFlow.renames a ++ LegacyFlow.renames b)%list.
Proof.
  induction a as [| [ev | x y ok] a IH]; cbn; [reflexivity | exact IH | ].
  rewrite IH. reflexivity.
Qed.

Lemma shared_lift (t : list Event) : LegacyFlow.shared (map LegacyFlow.Shared t) = t.
Proof. induction t as [| ev t IH]; cbn; [reflexivity | rewrite IH; reflexivity]. Qed.

Lemma renames_lift (t : list Event) : LegacyFlow.renames (map LegacyFlow.Shared t) = [].
Proof. induction t as [| ev t IH]; cbn; [reflexivity | exact IH]. Qed.

Lemma lift_run {A} (m : M W A) (w : W) :
  LegacyFlow.lift m w
  = LegacyFlow.mkLRun (outcome (m w)) (world (m w)) (map LegacyFlow.Shared (trace (m w))).
Proof. unfold LegacyFlow.lift. destruct (m w); reflexivity. Qed.

End LegacyLaws.

Section LegacyFlowProperties.

Variable W : Type.
Variable respond : forall c : Call, W -> Result (ret_ty c) * W.
Variable renameSync : string -> string -> W -> Result unit * W.
Variable getTime : W -> Z.
Variable argv : LegacyFlow.Argv.

(** X14: when the [zip] of the earlier revision returns, the archive was
    written as [extension_<t>.zip], [t] being the clock reading, then
    renamed to [extension_<t>.rbz], and that is the path returned. *)
Theorem legacy_zip_names_the_archive_after_the_clock (w : W) (p : string) :
  let r := LegacyFlow.zip respond renameSync getTime argv w in
  LegacyFlow.loutcome r = Returned p ->
  exists w1,
    let base := "extension_" ++ LegacyFlow.number_to_string (getTime w1) in
    p = base ++ ".rbz" /\
    written (LegacyFlow.shared (LegacyFlow.ltrace r)) = [base ++ ".zip"] /\
    LegacyFlow.renames (LegacyFlow.ltrace r) = [(base ++ ".zip", base ++ ".rbz", true)].
Proof.
  intros r. subst r. unfold_legacy.
  repeat first [ legacy_step respond renameSync
               | match goal with
                 | |- context [if negb ?b then _ else _] => destruct b; cbn [negb]
                 end; cbv beta iota ];
    intros H; try discriminate H.
  match goal with
  | Hw : respond (ArchiveOn "error") _ = (_, ?w4) |- _ => exists w4
  end.
  cbv zeta. rewrite (parse_name_of_timestamped _ "zip" eq_refl) in *.
  assert (E : p = ("extension_" ++ LegacyFlow.number_to_string (getTime w4)) ++ ".rbz")
    by congruence.
  rewrite E. split; [reflexivity | split; reflexivity].
Qed.

(** What a run of the earlier [sign] leaves behind, by the way it ends. *)
Lemma legacy_sign_footprint
    (zipPath : string) (username password output : JsString) (w : W) :
  let r := LegacyFlow.sign respond renameSync zipPath username password output w in
  forallb (downloads_to "." (LegacyFlow.outputName zipPath))
          (LegacyFlow.shared (LegacyFlow.ltrace r)) = true /\
  (forall code, LegacyFlow.loutcome r <> Exited code) /\
  (LegacyFlow.loutcome r = Returned tt ->
   uploads (LegacyFlow.shared (LegacyFlow.ltrace r)) = [[zipPath]] /\
   closes (LegacyFlow.shared (LegacyFlow.ltrace r)) = 1 /\
   LegacyFlow.renames (LegacyFlow.ltrace r)
   = match output with
     | Some o => if truthy output then [(LegacyFlow.outputName zipPath, o, true)] else []
     | None => []
     end).
Proof.
  intros r. name_run r. unfold_legacy.
  follow_legacy_sign respond renameSync output;
    intros ->;
    cbn [LegacyFlow.loutcome LegacyFlow.ltrace LegacyFlow.shared LegacyFlow.renames
         forallb downloads_to andb uploads closes];
    rewrite ?String.eqb_refl;
    (split; [reflexivity | ]);
    (split; [intros code; discriminate | ]);
    intros H; try discriminate H; repeat split.
Qed.

(** X15: the earlier [sign] moves the signed file to the output path
    itself: the download is stored in the working directory under the
    name derived from the archive, and when an output path is given the
    one rename of the run, made after the session has been closed, moves
    that file to exactly that path.  Without an output path nothing is
    renamed. *)
Theorem legacy_sign_moves_the_download_to_the_output
    (zipPath : string) (username password output : JsString) (w : W) :
  let r := LegacyFlow.sign respond renameSync zipPath username password output w in
  forallb (downloads_to "." (LegacyFlow.outputName zipPath))
          (LegacyFlow.shared (LegacyFlow.ltrace r)) = true /\
  (LegacyFlow.renames (LegacyFlow.ltrace r) = [] \/
   exists o ok,
     output = Some o /\ truthy output = true /\
     ends_with [LegacyFlow.Shared (Called BrowserClose true);
                LegacyFlow.Renamed (LegacyFlow.outputName zipPath) o ok]
               (LegacyFlow.ltrace r)) /\
  (LegacyFlow.loutcome r = Returned tt ->
   LegacyFlow.renames (LegacyFlow.ltrace r)
   = match output with
     | Some o => if truthy output then [(LegacyFlow.outputName zipPath, o, true)] else []
     | None => []
     end).
Proof.
  intros r. name_run r. unfold_legacy.
  follow_legacy_sign respond renameSync output;
    intros ->;
    cbn [LegacyFlow.loutcome LegacyFlow.ltrace LegacyFlow.shared LegacyFlow.renames
         forallb downloads_to andb];
    rewrite ?String.eqb_refl;
    (split; [reflexivity | ]);
    (split;
     [ first [ left; reflexivity
             | right; do 2 eexists; split; [reflexivity | split; [reflexivity | find_suffix]] ]
     | intros H; first [reflexivity | discriminate H] ]).
Qed.

(** X16: the earlier [sign] has no guard around its waits: it never ends
    the process, a failed wait is an exception like any other, and the
    only error line it can print is that of a failed download. *)
Theorem legacy_sign_never_exits
    (zipPath : string) (username password output : JsString) (w : W) :
  let r := LegacyFlow.sign respond renameSync zipPath username password output w in
  (forall code, LegacyFlow.loutcome r <> Exited code) /\
  (error_lines (LegacyFlow.shared (LegacyFlow.ltrace r)) = [] \/
   error_lines (LegacyFlow.shared (LegacyFlow.ltrace r)) = ["Download failed!"]).
Proof.
  intros r. name_run r. unfold_legacy.
  follow_legacy_sign respond renameSync output;
    intros ->;
    cbn [LegacyFlow.loutcome LegacyFlow.ltrace LegacyFlow.shared error_lines];
    (split; [intros code; discriminate | auto]).
Qed.

End LegacyFlowProperties.

Section LegacyMain.

Variable W : Type.
Variable respond : forall c : Call, W -> Result (ret_ty c) * W.
Variable renameSync : string -> string -> W -> Result unit * W.
Variable getTime : W -> Z.
Variable argv : LegacyFlow.Argv.

Lemma legacy_getCredentials_footprint (env : bool) (username password : string) (w : W) :
  let r := Legacy.getCredentials respond env username password w in
  forallb not_flow_event (trace r) = true /\
  uploads (trace r) = [] /\
  (forall code, outcome r = Exited code -> code = 1%Z /\ env = true) /\
  (forall a, outcome r = Returned a -> console_output (trace r) = []).
Proof.
  intros r. subst r. unfold_script.
  destruct env.
  - repeat split_step respond; repeat split; intros; try congruence; discriminate.
  - cbv beta iota.
    destruct (truthy (Some username)); destruct (truthy (Some password));
      cbn [negb]; cbv beta iota zeta delta [app];
      repeat answer_step respond; repeat split; intros; try congruence; discriminate.
Qed.

Lemma legacy_zip_footprint (w : W) :
  let r := LegacyFlow.zip respond renameSync getTime argv w in
  forallb not_flow_event (LegacyFlow.shared (LegacyFlow.ltrace r)) = true /\
  uploads (LegacyFlow.shared (LegacyFlow.ltrace r)) = [] /\
  (forall code,
      LegacyFlow.loutcome r = Exited code ->
      code = 0%Z /\
      console_output (LegacyFlow.shared (LegacyFlow.ltrace r))
      = [(Error, not_a_directory (LegacyFlow.path argv))]) /\
  (forall p,
      LegacyFlow.loutcome r = Returned p ->
      exists w1,
        let base := "extension_" ++ LegacyFlow.number_to_string (getTime w1) in
        p = base ++ ".rbz" /\
        LegacyFlow.renames (LegacyFlow.ltrace r) = [(base ++ ".zip", base ++ ".rbz", true)]).
Proof.
  intros r. subst r. unfold not_a_directory. unfold_legacy.
  repeat first [ legacy_step respond renameSync
               | match goal with
                 | |- context [if negb ?b then _ else _] => destruct b; cbn [negb]
                 end; cbv beta iota ];
    (split; [reflexivity | ]);
    (split; [reflexivity | ]);
    (split; [intros code H; try discriminate H; injection H as <-; split; reflexivity | ]);
    intros p H; try discriminate H.
  match goal with
  | Hw : respond (ArchiveOn "error") _ = (_, ?w4) |- _ => exists w4
  end.
  cbv zeta. rewrite (parse_name_of_timestamped _ "zip" eq_refl) in *.
  assert (E : p = ("extension_" ++ LegacyFlow.number_to_string (getTime w4)) ++ ".rbz")
    by congruence.
  rewrite E. split; reflexivity.
Qed.

(** Follows the earlier [main] through its three parts. *)
Ltac enter_legacy_main :=
  unfold LegacyFlow.main; rewrite lbind_run, lift_run;
  cbn [LegacyFlow.loutcome LegacyFlow.lworld LegacyFlow.ltrace];
  match goal with
  | |- context [Legacy.getCredentials respond ?en ?u ?p ?w] =>
      pose proof (legacy_getCredentials_footprint en u p w) as Fg; cbv zeta in Fg;
      destruct Fg as (Fg_quiet & Fg_uploads & Fg_exit & Fg_returned);
      destruct (outcome (Legacy.getCredentials respond en u p w)) as [[u0 p0] | e2 | c2] eqn:E2;
      cbv beta iota zeta
  end.

Ltac enter_legacy_zip :=
  rewrite lbind_run;
  match goal with
  | |- context [LegacyFlow.zip respond renameSync getTime argv ?w] =>
      pose proof (legacy_zip_footprint w) as Fz; cbv zeta in Fz;
      destruct Fz as (Fz_quiet & Fz_uploads & Fz_exit & Fz_returned);
      destruct (LegacyFlow.loutcome (LegacyFlow.zip respond renameSync getTime argv w))
        as [rbz | e3 | c3] eqn:E3;
      cbv beta iota zeta
  end.

Ltac enter_legacy_sign :=
  match goal with
  | |- context [LegacyFlow.sign respond renameSync ?z ?u ?p ?o ?w] =>
      pose proof (legacy_sign_footprint W respond renameSync z u p o w) as Fs;
      cbv zeta in Fs;
      destruct Fs as (Fs_downloads & Fs_exit & Fs_returned)
  end.

(** X17: a run of the earlier [main] that returns has uploaded the
    archive named after the clock, stored the download under the same
    name with [_signed] in the working directory, and renamed twice at
    most: the archive from [.zip] to [.rbz], then, when an output path is
    given, the signed file to exactly that path. *)
Theorem legacy_main_signs_the_timestamped_archive (w : W) :
  let r := LegacyFlow.main respond renameSync getTime argv w in
  LegacyFlow.loutcome r = Returned tt ->
  exists w1,
    let base := "extension_" ++ LegacyFlow.number_to_string (getTime w1) in
    uploads (LegacyFlow.shared (LegacyFlow.ltrace r)) = [[base ++ ".rbz"]] /\
    forallb (downloads_to "." (base ++ "_signed.rbz"))
            (LegacyFlow.shared (LegacyFlow.ltrace r)) = true /\
    LegacyFlow.renames (LegacyFlow.ltrace r)
    = (base ++ ".zip", base ++ ".rbz", true)
        :: match LegacyFlow.output argv with
           | Some o =>
               if truthy (LegacyFlow.output argv)
               then [(base ++ "_signed.rbz", o, true)]
               else []
           | None => []
           end.
Proof.
  intros r. subst r. enter_legacy_main; try discriminate.
  enter_legacy_zip; try discriminate.
  enter_legacy_sign.
  cbn [LegacyFlow.loutcome LegacyFlow.ltrace]. intros H.
  destruct (Fz_returned _ eq_refl) as (w1 & Hp & Hr). cbv zeta in Hp, Hr.
  destruct (Fs_returned H) as (Hu & _ & Hn).
  exists w1. cbv zeta.
  rewrite !shared_app, !renames_app, shared_lift, renames_lift.
  rewrite !uploads_app, !forallb_app.
  rewrite Fg_uploads, Fz_uploads, Hu, Hr, Hn. cbn [app].
  rewrite (forallb_weaken _ _ _ (not_flow_downloads_to _ _) Fg_quiet).
  rewrite (forallb_weaken _ _ _ (not_flow_downloads_to _ _) Fz_quiet).
  unfold LegacyFlow.outputName in *. subst rbz.
  change (("extension_" ++ LegacyFlow.number_to_string (getTime w1)) ++ ".rbz")
    with ("extension_" ++ LegacyFlow.number_to_string (getTime w1) ++ String "." "rbz") in *.
  rewrite (parse_name_of_timestamped _ "rbz" eq_refl) in *.
  rewrite Fs_downloads. repeat split.
Qed.

(** X18: the earlier [main] ends the process with code 1 only under
    [--env], from the credentials, and otherwise only with code 0, from
    the check of the source folder, the error about the folder being the
    one line printed; its [sign] never ends the process. *)
Theorem legacy_main_exit_codes (w : W) (code : Z) :
  let r := LegacyFlow.main respond renameSync getTime argv w in
  LegacyFlow.loutcome r = Exited code ->
  (code = 1%Z /\ LegacyFlow.env argv = true) \/
  (code = 0%Z /\
   console_output (LegacyFlow.shared (LegacyFlow.ltrace r))
   = [(Error, not_a_directory (LegacyFlow.path argv))]).
Proof.
  intros r. subst r. enter_legacy_main; try discriminate.
  2: { cbn [LegacyFlow.loutcome]. intros H. injection H as <-. left. apply Fg_exit. reflexivity. }
  enter_legacy_zip; try discriminate.
  2: { cbn [LegacyFlow.loutcome LegacyFlow.ltrace]. intros H. injection H as <-. right.
       destruct (Fz_exit _ eq_refl) as [-> Hc]. split; [reflexivity | ].
       rewrite shared_app, shared_lift, console_output_app, Hc.
       rewrite (Fg_returned _ eq_refl). reflexivity. }
  enter_legacy_sign.
  cbn [LegacyFlow.loutcome]. intros H. destruct (Fs_exit _ H).
Qed.

End LegacyMain.

(** * Concrete runs for the further properties *)

(** X3, witness: the download link never shows up. *)
Lemma sign_exits_only_from_search_witness :
  outcome (sign (scenario link_never_shows) argv_flags "out/widget_not_signed.rbz"
             (Some "a@b.com") (Some "secret") 0) = Exited 1
  /\ exists label selector e,
      ends_with [Console Log ("Searching " ++ label ++ "...");
                 Called (WaitForSelector selector true) false;
                 Console Error ("cannot find " ++ label ++ ": " ++ e)]
        (trace (sign (scenario link_never_shows) argv_flags "out/widget_not_signed.rbz"
                  (Some "a@b.com") (Some "secret") 0)).
Proof.
  split; [reflexivity | ].
  exact (proj2 (sign_exits_only_from_search nat (scenario link_never_shows) argv_flags
                  "out/widget_not_signed.rbz" (Some "a@b.com") (Some "secret") 0 1
                  eq_refl)).
Defined.

(** X5, witness: the download breaks. *)
Lemma sign_announces_download_regardless_witness :
  existsb is_download_event
    (trace (sign (scenario download_fails) argv_flags "out/widget_not_signed.rbz"
              (Some "a@b.com") (Some "secret") 0)) = true
  /\ exists ok,
      ends_with [Console Info ("Downloaded to " ++ dq
                               ++ outputPath "out/widget_not_signed.rbz" ++ dq);
                 Called BrowserClose ok]
        (trace (sign (scenario download_fails) argv_flags "out/widget_not_signed.rbz"
                  (Some "a@b.com") (Some "secret") 0)).
Proof.
  split; [reflexivity | ].
  exact (sign_announces_download_regardless nat (scenario download_fails) argv_flags
           "out/widget_not_signed.rbz" (Some "a@b.com") (Some "secret") 0 eq_refl).
Defined.

(** X6, witness: the click on the continue button fails. *)
Lemma sign_rejection_is_silent_witness :
  outcome (sign (scenario next_click_fails) argv_flags "out/widget_not_signed.rbz"
             (Some "a@b.com") (Some "secret") 0)
  = Threw "Error: No node found for selector: input[id=next]"
  /\ closes (trace (sign (scenario next_click_fails) argv_flags
                      "out/widget_not_signed.rbz" (Some "a@b.com") (Some "secret") 0)) = 0.
Proof.
  split; [reflexivity | ].
  exact (proj2 (sign_rejection_is_silent nat (scenario next_click_fails) argv_flags
                  "out/widget_not_signed.rbz" (Some "a@b.com") (Some "secret") 0
                  "Error: No node found for selector: input[id=next]" eq_refl)).
Defined.

(** X9, witness: the folder is there and an output path is given. *)
Lemma zip_returns_the_path_it_wrote_witness :
  outcome (zip (scenario all_good) argv_flags (Some "out/widget.rbz") 0)
  = Returned "out/widget_not_signed.rbz"
  /\ exists o, Some "out/widget.rbz" = Some o /\ "out/widget_not_signed.rbz" = archive_path o.
Proof.
  split; [reflexivity | ].
  destruct (zip_returns_the_path_it_wrote nat (scenario all_good) argv_flags
              (Some "out/widget.rbz") 0 "out/widget_not_signed.rbz" eq_refl)
    as (o & Ho & Hp & _).
  exists o. split; assumption.
Defined.

(** X10, witness: the same run has opened a write stream. *)
Lemma zip_writes_only_for_a_directory_witness :
  written (trace (zip (scenario all_good) argv_flags (Some "out/widget.rbz") 0)) <> []
  /\ Some "out/widget.rbz" <> None.
Proof.
  assert (H : written (trace (zip (scenario all_good) argv_flags (Some "out/widget.rbz") 0))
              <> []) by discriminate.
  split; [exact H | ].
  exact (proj1 (zip_writes_only_for_a_directory nat (scenario all_good) argv_flags
                  (Some "out/widget.rbz") 0 H)).
Defined.

(** X11, witness: the whole flow with flags and an output path. *)
Lemma main_uploads_the_archive_it_wrote_witness :
  Argv.output argv_flags = Some "out/widget.rbz"
  /\ (outcome (main (scenario all_good) argv_flags 0) = Returned tt ->
      uploads (trace (main (scenario all_good) argv_flags 0))
      = [[archive_path "out/widget.rbz"]]
      /\ written (trace (main (scenario all_good) argv_flags 0))
         = [archive_path "out/widget.rbz"]).
Proof.
  split; [reflexivity | ].
  exact (proj2 (main_uploads_the_archive_it_wrote nat (scenario all_good) argv_flags
                  "out/widget.rbz" 0 eq_refl)).
Defined.

(** X12, witness: the folder is missing. *)
Lemma main_exit_codes_witness :
  outcome (main (scenario folder_missing) argv_missing_folder 0) = Exited 0
  /\ (0%Z = 1%Z \/
      (0%Z = 0%Z /\
       console_output (trace (main (scenario folder_missing) argv_missing_folder 0))
       = [(Error, not_a_directory (Argv.path argv_missing_folder))])).
Proof.
  split; [reflexivity | ].
  exact (main_exit_codes nat (scenario folder_missing) argv_missing_folder 0 0 eq_refl).
Defined.

(** X13, witness: the folder is missing and no flag is given; the
    operator was asked for both fields before the error. *)
Lemma main_asks_before_checking_the_folder_witness :
  outcome (main (scenario folder_missing) argv_missing_folder_bare 0) = Exited 0
  /\ prompts_for "username" (trace (main (scenario folder_missing) argv_missing_folder_bare 0))
     = 1
  /\ prompts_for "password" (trace (main (scenario folder_missing) argv_missing_folder_bare 0))
     = 1.
Proof.
  split; [reflexivity | ].
  exact (main_asks_before_checking_the_folder nat (scenario folder_missing)
           argv_missing_folder_bare 0 eq_refl).
Defined.

(** X14, witness: the earlier [zip] with the folder in place. *)
Lemma legacy_zip_names_the_archive_after_the_clock_witness :
  LegacyFlow.loutcome
    (LegacyFlow.zip (scenario all_good) rename_works legacy_clock legacy_argv 0)
  = Returned "extension_1587000000005.rbz"
  /\ exists w1,
      "extension_1587000000005.rbz"
      = ("extension_" ++ LegacyFlow.number_to_string (legacy_clock w1)) ++ ".rbz".
Proof.
  split; [reflexivity | ].
  destruct (legacy_zip_names_the_archive_after_the_clock nat (scenario all_good)
              rename_works legacy_clock legacy_argv 0 "extension_1587000000005.rbz"
              eq_refl) as (w1 & Hp & _).
  exists w1. exact Hp.
Defined.

(** X17, witness: the earlier flow with flags and an output path. *)
Lemma legacy_main_signs_the_timestamped_archive_witness :
  LegacyFlow.loutcome
    (LegacyFlow.main (scenario all_good) rename_works legacy_clock legacy_argv 0)
  = Returned tt
  /\ exists w1,
      uploads (LegacyFlow.shared
                 (LegacyFlow.ltrace
                    (LegacyFlow.main (scenario all_good) rename_works legacy_clock
                       legacy_argv 0)))
      = [[("extension_" ++ LegacyFlow.number_to_string (legacy_clock w1)) ++ ".rbz"]].
Proof.
  split; [reflexivity | ].
  destruct (legacy_main_signs_the_timestamped_archive nat (scenario all_good)
              rename_works legacy_clock legacy_argv 0 eq_refl) as (w1 & Hu & _).
  exists w1. exact Hu.
Defined.

(** X18, witness: the earlier flow on a missing folder. *)
Lemma legacy_main_exit_codes_witness :
  LegacyFlow.loutcome
    (LegacyFlow.main (scenario folder_missing) rename_works legacy_clock
       legacy_argv_missing_folder 0)
  = Exited 0
  /\ ((0%Z = 1%Z /\ LegacyFlow.env legacy_argv_missing_folder = true) \/
      (0%Z = 0%Z /\
       console_output
         (LegacyFlow.shared
            (LegacyFlow.ltrace
               (LegacyFlow.main (scenario folder_missing) rename_works legacy_clock
                  legacy_argv_missing_folder 0)))
       = [(Error, not_a_directory "no_such_folder")])).
Proof.
  split; [reflexivity | ].
  exact (legacy_main_exit_codes nat (scenario folder_missing) rename_works legacy_clock
           legacy_argv_missing_folder 0 0 eq_refl).
Defined.

(** X19, witness: [widget.rbz]. *)
Lemma names_for_output_file_witness :
  plain "widget" = true /\ plain "rbz" = true
  /\ archive_path "widget.rbz" = "widget_not_signed.rbz"
  /\ outputPath (archive_path "widget.rbz") = "widget_signed.rbz".
Proof.
  split; [reflexivity | ]. split; [reflexivity | ].
  destruct (names_for_output_file "widget" "rbz" eq_refl ltac:(discriminate) eq_refl)
    as (Ha & Ho & _).
  split; [exact Ha | exact Ho].
Defined.

(** X20, witness: [out/widget.rbz]. *)
Lemma names_for_output_in_directory_witness :
  plain "out" = true /\ plain "widget" = true /\ plain "rbz" = true
  /\ archive_path "out/widget.rbz" = "out/widget_not_signed.rbz"
  /\ outputPath (archive_path "out/widget.rbz") = "out/widget_signed.rbz".
Proof.
  split; [reflexivity | ]. split; [reflexivity | ]. split; [reflexivity | ].
  destruct (names_for_output_in_directory "out" "widget" "rbz"
              eq_refl ltac:(discriminate) eq_refl ltac:(discriminate) eq_refl)
    as (Ha & Ho & _).
  split; [exact Ha | exact Ho].
Defined.

(** X21, witness: the whole flow with [--output out/widget.rbz]. *)
Lemma main_files_for_output_in_directory_witness :
  Argv.output argv_flags = Some ("out" ++ "/" ++ "widget" ++ "." ++ "rbz")
  /\ forallb (downloads_to "out" ("widget" ++ "_signed.rbz"))
             (trace (main (scenario all_good) argv_flags 0)) = true.
Proof.
  split; [reflexivity | ].
  exact (proj2 (proj2 (main_files_for_output_in_directory nat (scenario all_good)
                         argv_flags "out" "widget" "rbz" 0
                         eq_refl ltac:(discriminate) eq_refl ltac:(discriminate) eq_refl
                         eq_refl))).
Defined.
